(** * Shapefile to GeoJSON converter: a shallow embedding of
      [examples/shp_to_geojson.py] and the properties of its conversion core.

    The Python routine [shp_to_geojson] reads shape records from a pyshp
    reader, builds one GeoJSON feature per record with a supported geometry
    and dumps the collection as JSON.  Python objects are embedded as a tree
    of values, dictionaries as insertion-ordered association lists, and
    exceptions as an error result. *)

From Stdlib Require Import ZArith List String Ascii Bool Lia.
From Stdlib Require Import Floats.SpecFloat DecimalString Sorted.
Import ListNotations.

Local Open Scope string_scope.
Local Open Scope Z_scope.
Local Open Scope list_scope.

(** ** Python values *)

Module Py.

#[local] Set Warnings "-register-all".

(** The objects the converter handles: what a pyshp record can hold
    ([None], booleans, integers, floats, text, dates) and what the converter
    builds from them (lists and dictionaries).  A dictionary keeps its keys
    in insertion order. *)
Inductive pyobj : Type :=
| PyNone
| PyBool (b : bool)
| PyInt (z : Z)
| PyFloat (f : spec_float)
| PyStr (s : string)
| PyDate (year month day : nat)
| PyList (items : list pyobj)
| PyDict (entries : list (string * pyobj)).

(** The exceptions the modelled statements can raise. *)
Inductive exn : Type :=
| IndexError
| KeyError (key : string)
| AttributeError
| TypeError.

Inductive result (A : Type) : Type :=
| Ok (a : A)
| Raise (e : exn).

Arguments Ok {A} a.
Arguments Raise {A} e.

Definition bind {A B : Type} (c : result A) (k : A -> result B) : result B :=
  match c with
  | Ok a => k a
  | Raise e => Raise e
  end.

Notation "x <- c ;; k" := (bind c (fun x => k))
  (at level 61, c at next level, right associativity).

(** [for x in xs: s = body x s], stopping at the first exception. *)
Fixpoint for_each {A S : Type} (body : A -> S -> result S) (xs : list A) (s : S)
  : result S :=
  match xs with
  | [] => Ok s
  | x :: rest => s' <- body x s ;; for_each body rest s'
  end.

(** [range(n)] *)
Definition range (n : nat) : list Z := map Z.of_nat (seq 0 n).

(** [enumerate(xs)] *)
Definition enumerate {A : Type} (xs : list A) : list (Z * A) :=
  combine (range (List.length xs)) xs.

(** [len(xs)] *)
Definition len {A : Type} (xs : list A) : Z := Z.of_nat (List.length xs).

(** [xs[i]] on a list: a negative index counts from the end, an index out of
    range raises [IndexError]. *)
Definition getitem {A : Type} (xs : list A) (i : Z) : result A :=
  let j := if i <? 0 then i + len xs else i in
  if j <? 0 then Raise IndexError
  else match nth_error xs (Z.to_nat j) with
       | Some x => Ok x
       | None => Raise IndexError
       end.

(** The bound adjustment of a slice with step 1: a negative bound counts
    from the end, and every bound is clamped to [0, len]. *)
Definition slice_bound (n i : Z) : Z :=
  if i <? 0 then Z.max 0 (i + n) else Z.min i n.

(** [xs[start:stop]] *)
Definition slice {A : Type} (xs : list A) (start stop : Z) : list A :=
  let lo := slice_bound (len xs) start in
  let hi := slice_bound (len xs) stop in
  firstn (Z.to_nat (hi - lo)) (skipn (Z.to_nat lo) xs).

(** [d.get(k)] on the entries of a dictionary. *)
Fixpoint dict_get {V : Type} (d : list (string * V)) (k : string) : option V :=
  match d with
  | [] => None
  | (k', v) :: rest => if String.eqb k' k then Some v else dict_get rest k
  end.

(** [d[k] = v]: an existing key keeps its place and takes the new value, a
    new key goes last. *)
Fixpoint dict_set {V : Type} (d : list (string * V)) (k : string) (v : V)
  : list (string * V) :=
  match d with
  | [] => [(k, v)]
  | (k', v') :: rest =>
      if String.eqb k' k then (k', v) :: rest else (k', v') :: dict_set rest k v
  end.

(** [obj[k]] read as an option: the value under a key of a dictionary. *)
Definition item (o : pyobj) (k : string) : option pyobj :=
  match o with
  | PyDict d => dict_get d k
  | _ => None
  end.

(** Truth value of an object, as [if obj:] tests it. *)
Definition truthy (o : pyobj) : bool :=
  match o with
  | PyNone => false
  | PyBool b => b
  | PyInt z => negb (z =? 0)
  | PyFloat (S754_zero _) => false
  | PyFloat _ => true
  | PyStr s => negb (String.eqb s "")
  | PyDate _ _ _ => true
  | PyList l => match l with [] => false | _ => true end
  | PyDict d => match d with [] => false | _ => true end
  end.

(** What [json] can encode: [None], booleans, numbers, text, and lists and
    string-keyed dictionaries of such values.  A date is not among them. *)
Fixpoint serializable (o : pyobj) : bool :=
  match o with
  | PyDate _ _ _ => false
  | PyList l => forallb serializable l
  | PyDict d => forallb (fun kv => serializable (snd kv)) d
  | _ => true
  end.

(** [hasattr(value, 'isoformat')]: of the values a record holds, only dates
    have the method. *)
Definition has_isoformat (o : pyobj) : bool :=
  match o with
  | PyDate _ _ _ => true
  | _ => false
  end.

Definition decimal (n : nat) : string := NilZero.string_of_uint (Nat.to_uint n).

(** Left padding with zeros up to a width, as the [%04d] and [%02d] formats
    do for a non-negative number. *)
Definition zfill (width : nat) (s : string) : string :=
  (string_of_list_ascii (repeat "0"%char (width - String.length s)) ++ s)%string.

(** [date.isoformat()]: [YYYY-MM-DD]. *)
Definition date_isoformat (year month day : nat) : string :=
  (zfill 4 (decimal year) ++ "-" ++ zfill 2 (decimal month) ++ "-"
     ++ zfill 2 (decimal day))%string.

(** [value.isoformat()] *)
Definition isoformat (o : pyobj) : result pyobj :=
  match o with
  | PyDate y m d => Ok (PyStr (date_isoformat y m d))
  | _ => Raise AttributeError
  end.

End Py.

Import Py.

(** ** The reader's data *)

(** A field descriptor of [sf.fields]: name, type letter, size, decimals.
    [f[0]] is the name. *)
Record Field : Type := mkField {
  field_name : string;
  field_type : string;
  field_size : Z;
  field_decimal : Z
}.

(** [shape_rec.shape]: the type code, the flat coordinate buffer and the start
    offset of every part. *)
Record Shape : Type := mkShape {
  shapeType : Z;
  points : list pyobj;
  parts : list Z
}.

(** One element of [sf.shapeRecords()]. *)
Record ShapeRecord : Type := mkShapeRecord {
  shape : Shape;
  record : list pyobj
}.

(** What the converter reads from [shapefile.Reader]. *)
Record Reader : Type := mkReader {
  fields : list Field;
  shapeRecords : list ShapeRecord
}.

(** ** The converter *)

(** Line 54: [field_names = [f[0] for f in sf.fields[1:]]]. *)
Definition field_names (sf : Reader) : list string :=
  map field_name (skipn 1 (fields sf)).

(** Lines 57-66: the initial document, with no feature yet. *)
Definition geojson_init : pyobj :=
  PyDict [("type", PyStr "FeatureCollection");
          ("crs", PyDict [("type", PyStr "name");
                          ("properties", PyDict [("name", PyStr "EPSG:4326")])]);
          ("features", PyList [])].

(** Lines 76-80, the body of the attribute loop: one field of one record.
    [record[i]] raises [IndexError] past the end of the row; a value that has
    [isoformat] is replaced by its result. *)
Definition set_property (record : list pyobj) (entry : Z * string)
  (properties : list (string * pyobj)) : result (list (string * pyobj)) :=
  let (i, name) := entry in
  value <- getitem record i ;;
  value <- (if has_isoformat value then isoformat value else Ok value) ;;
  Ok (dict_set properties name value).

(** Lines 74-80, the attribute loop: [properties] of one record, filled in
    the order of [enumerate(field_names)]. *)
Definition properties_of (names : list string) (record : list pyobj)
  : result (list (string * pyobj)) :=
  for_each (set_property record) (enumerate names) [].

(** Lines 101-103 and 120-122, the body of the part loop, the same for lines
    and rings: part [i] is [points[start:end]], appended to the parts so
    far. *)
Definition add_part (shape : Shape) (i : Z) (acc : list pyobj)
  : result (list pyobj) :=
  start <- getitem (parts shape) i ;;
  stop <- (if i <? len (parts shape) - 1
           then getitem (parts shape) (i + 1)
           else Ok (len (points shape))) ;;
  Ok (acc ++ [PyList (slice (points shape) start stop)]).

(** Lines 99-103 and 118-122, the part loop over [range(len(shape.parts))]:
    [lines] of a polyline, [rings] of a polygon. *)
Definition split_parts (shape : Shape) : result (list pyobj) :=
  for_each (add_part shape) (range (List.length (parts shape))) [].

(** The dictionary literal of a geometry. *)
Definition geometry_dict (tag : string) (coordinates : pyobj) : pyobj :=
  PyDict [("type", PyStr tag); ("coordinates", coordinates)].

(** Lines 83-126: the geometry of one shape; it stays [None] when the shape
    type is none of 1, 3, 5. *)
Definition geometry_of (shape : Shape) : result pyobj :=
  if shapeType shape =? 1 then
    p <- getitem (points shape) 0 ;;
    Ok (geometry_dict "Point" p)
  else if shapeType shape =? 3 then
    if len (parts shape) =? 1 then
      Ok (geometry_dict "LineString" (PyList (points shape)))
    else
      lines <- split_parts shape ;;
      Ok (geometry_dict "MultiLineString" (PyList lines))
  else if shapeType shape =? 5 then
    if len (parts shape) =? 1 then
      Ok (geometry_dict "Polygon" (PyList [PyList (points shape)]))
    else
      rings <- split_parts shape ;;
      Ok (geometry_dict "Polygon" (PyList rings))
  else Ok PyNone.

(** Lines 130-134: the dictionary literal of a feature. *)
Definition feature_dict (geometry : pyobj) (properties : list (string * pyobj))
  : pyobj :=
  PyDict [("type", PyStr "Feature"); ("geometry", geometry);
          ("properties", PyDict properties)].

(** Line 135: [geojson["features"].append(feature)], on the document that
    the loop carries along. *)
Definition append_feature (geojson feature : pyobj) : result pyobj :=
  match geojson with
  | PyDict d =>
      match dict_get d "features" with
      | Some (PyList fs) => Ok (PyDict (dict_set d "features" (PyList (fs ++ [feature]))))
      | Some _ => Raise AttributeError
      | None => Raise (KeyError "features")
      end
  | _ => Raise TypeError
  end.

(** Lines 70-135, the body of the record loop: the properties first, then
    the geometry, then the feature when the geometry is truthy. *)
Definition convert_record (names : list string) (shape_rec : ShapeRecord)
  (geojson : pyobj) : result pyobj :=
  properties <- properties_of names (record shape_rec) ;;
  geometry <- geometry_of (shape shape_rec) ;;
  if truthy geometry
  then append_feature geojson (feature_dict geometry properties)
  else Ok geojson.

(** Lines 54-135: the document built from a reader, everything between
    opening the shapefile and writing the output. *)
Definition build_geojson (sf : Reader) : result pyobj :=
  for_each (convert_record (field_names sf)) (shapeRecords sf) geojson_init.

(** The call [json.dump(obj, f, indent=indent)] on the opened output file. *)
Record Dump : Type := mkDump {
  dump_obj : pyobj;
  dump_indent : Z
}.

(** Lines 138-139: [json.dump] raises [TypeError] on an object it cannot
    encode. *)
Definition json_dump (obj : pyobj) (indent : Z) : result Dump :=
  if serializable obj then Ok (mkDump obj indent) else Raise TypeError.

(** What one run leaves behind: the dump and the feature count it prints. *)
Record Conversion : Type := mkConversion {
  written : Dump;
  reported : Z
}.

(** Line 141: [len(geojson['features'])]. *)
Definition feature_count (geojson : pyobj) : result Z :=
  match geojson with
  | PyDict d =>
      match dict_get d "features" with
      | Some (PyList fs) => Ok (len fs)
      | Some _ => Raise TypeError
      | None => Raise (KeyError "features")
      end
  | _ => Raise TypeError
  end.

(** Lines 19-145, [shp_to_geojson]: [None] when the shapefile does not exist
    (lines 32-34), otherwise the conversion of the reader opened on it, dumped
    with [indent=2]. *)
Definition shp_to_geojson (shp_exists : bool) (sf : Reader)
  : result (option Conversion) :=
  if negb shp_exists then Ok None
  else
    geojson <- build_geojson sf ;;
    dump <- json_dump geojson 2 ;;
    n <- feature_count geojson ;;
    Ok (Some (mkConversion dump n)).

(** ** Notions of the specification *)

(** The shape types the geometry builder handles: Point, Polyline, Polygon. *)
Definition supported_type (t : Z) : bool :=
  (t =? 1) || (t =? 3) || (t =? 5).

(** The end offset of part [i]: the start of the next part, or the number of
    points for the last part. *)
Definition part_stop (shape : Shape) (i : nat) : Z :=
  match nth_error (parts shape) (S i) with
  | Some next => next
  | None => len (points shape)
  end.

(** All the part slices of a shape, in part order. *)
Definition part_slices (shape : Shape) : list (list pyobj) :=
  map (fun i => slice (points shape) (nth i (parts shape) 0) (part_stop shape i))
      (seq 0 (List.length (parts shape))).

(** Each offset is below the next one. *)
Fixpoint strictly_increasing (offsets : list Z) : bool :=
  match offsets with
  | a :: (b :: _) as rest => (a <? b) && strictly_increasing rest
  | _ => true
  end.

(** The invariant of a geometry record: the offsets start at 0, increase
    strictly and lie within [0, len(points)). *)
Definition valid_parts (shape : Shape) : bool :=
  match parts shape with
  | [] => false
  | first :: _ => first =? 0
  end
  && strictly_increasing (parts shape)
  && forallb (fun p => (0 <=? p) && (p <? len (points shape))) (parts shape).

(** The value stored for an attribute: the ISO text of a date, any other
    value as it is. *)
Definition json_value (value : pyobj) : pyobj :=
  match value with
  | PyDate y m d => PyStr (date_isoformat y m d)
  | _ => value
  end.

(** A row that has a value for every field name. *)
Definition row_covers (names : list string) (row : list pyobj) : Prop :=
  (List.length names <= List.length row)%nat.

(** A record the converter can process: its row covers the field names, and a
    Point shape has its point. *)
Definition well_formed (names : list string) (shape_rec : ShapeRecord) : Prop :=
  row_covers names (record shape_rec)
  /\ (shapeType (shape shape_rec) = 1 -> points (shape shape_rec) <> []).

(** An object [json] can encode. *)
Definition encodable (o : pyobj) : Prop := serializable o = true.

(** A record whose data [json] can encode once the dates of the row are
    converted. *)
Definition json_ready (shape_rec : ShapeRecord) : Prop :=
  Forall encodable (points (shape shape_rec))
  /\ Forall (fun v => encodable (json_value v)) (record shape_rec).

(** The document that holds the given features. *)
Definition feature_collection (features : list pyobj) : pyobj :=
  PyDict [("type", PyStr "FeatureCollection");
          ("crs", PyDict [("type", PyStr "name");
                          ("properties", PyDict [("name", PyStr "EPSG:4326")])]);
          ("features", PyList features)].

(** A feature object: exactly the keys [type], [geometry] and [properties],
    the geometry holding exactly [type], one of the four tags, and
    [coordinates]. *)
Definition is_feature (o : pyobj) : Prop :=
  exists tag coordinates properties,
    In tag ["Point"; "LineString"; "MultiLineString"; "Polygon"]
    /\ o = PyDict [("type", PyStr "Feature");
                   ("geometry", PyDict [("type", PyStr tag);
                                        ("coordinates", coordinates)]);
                   ("properties", PyDict properties)].

(** The slices cut at a list of offsets, by recursion on the offsets: each
    slice runs to the next offset, the last one to the end of the buffer. *)
Fixpoint cut (pts : list pyobj) (offsets : list Z) : list (list pyobj) :=
  match offsets with
  | [] => []
  | a :: rest => slice pts a (hd (len pts) rest) :: cut pts rest
  end.

(** One assignment [properties[name] = value], on a name and value pair. *)
Definition store (properties : list (string * pyobj)) (kv : string * pyobj)
  : list (string * pyobj) :=
  dict_set properties (fst kv) (snd kv).

(** The feature the converter builds for a record: its geometry and its
    properties under the keys of a GeoJSON feature. *)
Definition built_from (names : list string) (shape_rec : ShapeRecord)
  (feature : pyobj) : Prop :=
  exists geometry properties,
    geometry_of (shape shape_rec) = Ok geometry
    /\ properties_of names (record shape_rec) = Ok properties
    /\ feature = PyDict [("type", PyStr "Feature"); ("geometry", geometry);
                         ("properties", PyDict properties)].

(** The records whose shape type is supported, in their order. *)
Definition supported_records (shape_recs : list ShapeRecord) : list ShapeRecord :=
  filter (fun r => supported_type (shapeType (shape r))) shape_recs.

(** ** Sample data *)

Module Sample.

(** The binary64 float of a whole number. *)
Definition whole (z : Z) : spec_float := binary_normalize 53 1024 z 0 false.

(** A coordinate pair as pyshp hands it over. *)
Definition xy (x y : Z) : pyobj := PyList [PyFloat (whole x); PyFloat (whole y)].

Definition five_points : list pyobj :=
  [xy 0 0; xy 1 0; xy 2 1; xy 3 1; xy 4 2].

Definition eight_points : list pyobj :=
  [xy 0 0; xy 4 0; xy 4 4; xy 0 0; xy 1 1; xy 2 1; xy 2 2; xy 1 1].

Definition two_fields : list Field :=
  [mkField "DeletionFlag" "C" 1 0; mkField "NAME" "C" 20 0;
   mkField "SURVEYED" "D" 8 0].

Definition point_record : ShapeRecord :=
  mkShapeRecord (mkShape 1 [xy 7 9] []) [PyStr "well"; PyDate 2024 3 7].

Definition polyline_record : ShapeRecord :=
  mkShapeRecord (mkShape 3 five_points [0; 3]) [PyStr "fence"; PyNone].

Definition multipatch_record : ShapeRecord :=
  mkShapeRecord (mkShape 31 five_points [0]) [PyStr "roof"; PyNone].

Definition polygon_record : ShapeRecord :=
  mkShapeRecord (mkShape 5 eight_points [0; 4]) [PyStr "lot"; PyDate 2023 11 30].

End Sample.

(** ** The script around the converter *)

Module Script.

(** What can stop the script: an exception of the conversion itself, the
    [ValueError] of [with_suffix] on a path without a name, whatever the
    shapefile reader raises on a file it cannot read, and whatever [open]
    raises on a file it cannot write. *)
Inductive failure : Type :=
| Python (e : exn)
| ValueError
| ReadError
| WriteError.

Inductive outcome (A : Type) : Type :=
| Return (a : A)
| Fail (f : failure).

Arguments Return {A} a.
Arguments Fail {A} f.

(** What the script takes from [pathlib], on the host's path type:
    [Path(text)], [str(p)], [p.name] and [p.with_suffix(suffix)], the last one
    failing on a path whose name is empty. *)
Record Pathlib (path : Type) : Type := mkPathlib {
  path_of : string -> path;
  path_str : path -> string;
  path_name : path -> string;
  with_suffix : path -> string -> option path
}.

Arguments path_of {path} _ _.
Arguments path_str {path} _ _.
Arguments path_name {path} _ _.
Arguments with_suffix {path} _ _ _.

(** What the script does to the outside, in time order: a printed line, an
    output file opened for writing (created or emptied), and the JSON text of
    a dump written to the opened file, which is then closed. *)
Inductive event (path : Type) : Type :=
| Print (line : string)
| Open (file : path)
| Dumped (file : path) (dump : Dump).

Arguments Print {path} line.
Arguments Open {path} file.
Arguments Dumped {path} file dump.

(** What the host answers, given what has happened so far: whether a path
    exists, the content of the shapefile at a path when the reader can read
    it, whether a path can be opened for writing, and the result of the glob
    [lot_boundary*.shp] in the script's directory. *)
Record Host (path : Type) : Type := mkHost {
  host_exists : list (event path) -> path -> bool;
  host_reader : list (event path) -> path -> option Reader;
  host_writable : list (event path) -> path -> bool;
  host_glob : list (event path) -> list path
}.

Arguments host_exists {path} _ _ _.
Arguments host_reader {path} _ _ _.
Arguments host_writable {path} _ _ _.
Arguments host_glob {path} _ _.

(** A step of the script: from the events so far to the events after it and
    its outcome.  The events of a failing step stay. *)
Definition io (path A : Type) : Type :=
  list (event path) -> list (event path) * outcome A.

Definition ret {path A : Type} (a : A) : io path A :=
  fun t => (t, Return a).

Definition fail {path A : Type} (f : failure) : io path A :=
  fun t => (t, Fail f).

Definition and_then {path A B : Type} (c : io path A) (k : A -> io path B)
  : io path B :=
  fun t =>
    match c t with
    | (t', Return a) => k a t'
    | (t', Fail f) => (t', Fail f)
    end.

Notation "x <~ c ;; k" := (and_then c (fun x => k))
  (at level 61, c at next level, right associativity).
Notation "c >> k" := (and_then c (fun _ => k))
  (at level 61, right associativity).

Definition emit {path : Type} (e : event path) : io path unit :=
  fun t => (t ++ [e], Return tt).

(** [print(line)] *)
Definition print {path : Type} (line : string) : io path unit :=
  emit (Print line).

(** A question to the host. *)
Definition ask {path A : Type} (q : list (event path) -> A) : io path A :=
  fun t => (t, Return (q t)).

(** A computation of the conversion, its exception becoming a failure. *)
Definition lift {path A : Type} (r : result A) : io path A :=
  match r with
  | Ok a => ret a
  | Raise e => fail (Python e)
  end.

(** [for x in xs: body(x)] *)
Fixpoint for_io {path A : Type} (body : A -> io path unit) (xs : list A)
  : io path unit :=
  match xs with
  | [] => ret tt
  | x :: rest => body x >> for_io body rest
  end.

(** [s * n] on text. *)
Fixpoint str_mul (s : string) (n : nat) : string :=
  match n with
  | O => ""
  | S n' => (s ++ str_mul s n')%string
  end.

(** [shapefile.Reader(str(shp_path))] with its fields and records read. *)
Definition read_shapefile {path : Type} (h : Host path) (shp_path : path)
  : io path Reader :=
  sf <~ ask (fun t => host_reader h t shp_path) ;;
  match sf with
  | Some sf => ret sf
  | None => fail ReadError
  end.

(** [open(geojson_path, 'w')] *)
Definition open_output {path : Type} (h : Host path) (geojson_path : path)
  : io path unit :=
  ok <~ ask (fun t => host_writable h t geojson_path) ;;
  if ok : bool then emit (Open geojson_path) else fail WriteError.

(** Lines 19-145, [shp_to_geojson(shp_path, geojson_path=None)] with its
    prints and its file accesses, both paths already being [Path] objects. *)
Definition shp_to_geojson {path : Type} (lib : Pathlib path) (h : Host path)
  (shp_path : path) (geojson_path : option path) : io path (option path) :=
  found <~ ask (fun t => host_exists h t shp_path) ;;
  if negb found then
    print ("[ERROR] Shapefile not found: " ++ path_str lib shp_path)%string >>
    ret None
  else
    geojson_path <~ match geojson_path with
                    | None =>
                        match with_suffix lib shp_path ".geojson" with
                        | Some p => ret p
                        | None => fail ValueError
                        end
                    | Some p => ret p
                    end ;;
    print (str_mul "=" 80) >>
    print "SHAPEFILE TO GEOJSON CONVERTER" >>
    print (str_mul "=" 80) >>
    print "" >>
    print ("Input:  " ++ path_name lib shp_path)%string >>
    print ("Output: " ++ path_name lib geojson_path)%string >>
    print "" >>
    sf <~ read_shapefile h shp_path ;;
    geojson <~ lift (build_geojson sf) ;;
    open_output h geojson_path >>
    dump <~ lift (json_dump geojson 2) ;;
    emit (Dumped geojson_path dump) >>
    n <~ lift (feature_count geojson) ;;
    print ("Converted " ++ decimal (Z.to_nat n) ++ " feature(s)")%string >>
    print ("[OK] GeoJSON created: " ++ path_str lib geojson_path)%string >>
    print "" >>
    ret (Some geojson_path).

(** Lines 164-166, the conversion loop of [batch_convert]: each shapefile in
    turn, its result dropped, then an empty line. *)
Definition convert_each {path : Type} (lib : Pathlib path) (h : Host path)
  (shapefiles : list path) : io path unit :=
  for_io (fun shp_path => shp_to_geojson lib h shp_path None >> print "")
         shapefiles.

(** Lines 173-175, the body of the listing loop of [batch_convert]. *)
Definition list_output {path : Type} (lib : Pathlib path) (shp_path : path)
  : io path unit :=
  match with_suffix lib shp_path ".geojson" with
  | Some geojson_path =>
      print ("  - " ++ path_name lib geojson_path)%string
  | None => fail ValueError
  end.

(** Lines 147-182, [batch_convert()]. *)
Definition batch_convert {path : Type} (lib : Pathlib path) (h : Host path)
  : io path unit :=
  print (str_mul "=" 80) >>
  print "BATCH CONVERT SHAPEFILES TO GEOJSON" >>
  print (str_mul "=" 80) >>
  print "" >>
  shapefiles <~ ask (host_glob h) ;;
  match shapefiles with
  | [] => print "No lot_boundary*.shp files found in current directory"
  | _ =>
      print ("Found " ++ decimal (List.length shapefiles) ++ " shapefile(s)")%string >>
      print "" >>
      convert_each lib h shapefiles >>
      print (str_mul "=" 80) >>
      print "BATCH CONVERSION COMPLETE" >>
      print (str_mul "=" 80) >>
      print "" >>
      print "GeoJSON files created:" >>
      for_io (list_output lib) shapefiles >>
      print "" >>
      print "USAGE IN GRASSHOPPER:" >>
      print "  1. Add GHPython component" >>
      print "  2. Copy code from: geojson_importer.py" >>
      print "  3. Set input 'filepath' to GeoJSON file path" >>
      print "  4. Outputs: curves, attributes" >>
      print ""
  end.

(** Lines 184-192, the script run with the command line [argv]. *)
Definition main {path : Type} (lib : Pathlib path) (h : Host path)
  (argv : list string) : io path unit :=
  match argv with
  | _ :: shp_path :: rest =>
      let geojson_path := match rest with
                          | [] => None
                          | out :: _ => Some (path_of lib out)
                          end in
      shp_to_geojson lib h (path_of lib shp_path) geojson_path >> ret tt
  | _ => batch_convert lib h
  end.

(** Lines 37-40: the output path, the given one or the shapefile's path
    with the suffix [.geojson]. *)
Definition output_path {path : Type} (lib : Pathlib path) (shp_path : path)
  (geojson_path : option path) : option path :=
  match geojson_path with
  | Some p => Some p
  | None => with_suffix lib shp_path ".geojson"
  end.

(** The lines printed before the shapefile is read. *)
Definition announcement {path : Type} (lib : Pathlib path)
  (shp_path geojson_path : path) : list string :=
  [str_mul "=" 80; "SHAPEFILE TO GEOJSON CONVERTER"; str_mul "=" 80; "";
   ("Input:  " ++ path_name lib shp_path)%string;
   ("Output: " ++ path_name lib geojson_path)%string; ""].

(** The lines [batch_convert] prints before the glob, before the conversion
    loop, before the listing and after it. *)
Definition batch_banner : list string :=
  [str_mul "=" 80; "BATCH CONVERT SHAPEFILES TO GEOJSON"; str_mul "=" 80; ""].

Definition batch_found (n : nat) : list string :=
  [("Found " ++ decimal n ++ " shapefile(s)")%string; ""].

Definition batch_closing : list string :=
  [str_mul "=" 80; "BATCH CONVERSION COMPLETE"; str_mul "=" 80; "";
   "GeoJSON files created:"].

Definition usage : list string :=
  [""; "USAGE IN GRASSHOPPER:"; "  1. Add GHPython component";
   "  2. Copy code from: geojson_importer.py";
   "  3. Set input 'filepath' to GeoJSON file path";
   "  4. Outputs: curves, attributes"; ""].

(** The lines a completed conversion prints after the dump. *)
Definition summary {path : Type} (lib : Pathlib path) (n : Z) (q : path)
  : list string :=
  [("Converted " ++ decimal (Z.to_nat n) ++ " feature(s)")%string;
   ("[OK] GeoJSON created: " ++ path_str lib q)%string; ""].

(** The line of the final listing for one shapefile. *)
Definition listing_line {path : Type} (lib : Pathlib path) (shp_path : path)
  : string :=
  match with_suffix lib shp_path ".geojson" with
  | Some geojson_path => ("  - " ++ path_name lib geojson_path)%string
  | None => ""
  end.

(** A shapefile that converts into a given output file: at any time the
    reader reads it, its records are well-formed and [json] can encode them,
    and the output file can be opened for writing. *)
Definition ready {path : Type} (h : Host path) (shp_path geojson_path : path)
  : Prop :=
  exists sf : Reader,
    (forall t, host_reader h t shp_path = Some sf)
    /\ (forall t, host_writable h t geojson_path = true)
    /\ Forall (well_formed (field_names sf)) (shapeRecords sf)
    /\ Forall json_ready (shapeRecords sf).

(** An event on one file: it is opened or dumped. *)
Definition writes_to {path : Type} (q : path) (e : event path) : Prop :=
  e = Open q \/ exists dump, e = Dumped q dump.

(** The file events among some events. *)
Definition file_events {path : Type} (t : list (event path)) : list (event path) :=
  filter (fun e => match e with Print _ => false | _ => true end) t.

(** The printed lines among some events. *)
Definition printed {path : Type} (t : list (event path)) : list string :=
  flat_map (fun e => match e with Print line => [line] | _ => [] end) t.


(** The files dumped among some events, in time order. *)
Definition dumped_files {path : Type} (t : list (event path)) : list path :=
  flat_map (fun e => match e with Dumped file _ => [file] | _ => [] end) t.

End Script.

(** A host for the examples: paths are a folder and a file name. *)
Module Desk.

Record path : Type := mkPath { folder : string; file : string }.

(** The index of the last dot of a name. *)
Fixpoint rfind_dot (s : string) (i : nat) (last : option nat) : option nat :=
  match s with
  | EmptyString => last
  | String c rest =>
      rfind_dot rest (S i) (if Ascii.eqb c "."%char then Some i else last)
  end.

(** The name without its suffix: the suffix starts at the last dot, unless
    that dot is the first or the last character. *)
Definition stem (name : string) : string :=
  match rfind_dot name 0 None with
  | Some i =>
      if ((0 <? i) && (i <? String.length name - 1))%nat
      then substring 0 i name
      else name
  | None => name
  end.

Definition lib : Script.Pathlib path :=
  Script.mkPathlib path
    (fun text => mkPath "" text)
    (fun p => if String.eqb (folder p) "" then file p
              else (folder p ++ "/" ++ file p)%string)
    file
    (fun p suffix =>
       if String.eqb (file p) "" then None
       else Some (mkPath (folder p) (stem (file p) ++ suffix)%string)).

(** A folder with two shapefiles and the dangling link [lot_boundary_x.shp]:
    the link is listed by the glob but does not exist. *)
Definition north : path := mkPath "lots" "lot_boundary_north.shp".
Definition gone : path := mkPath "lots" "lot_boundary_x.shp".
Definition south : path := mkPath "lots" "lot_boundary_south.shp".

Definition north_out : path := mkPath "lots" "lot_boundary_north.geojson".
Definition south_out : path := mkPath "lots" "lot_boundary_south.geojson".

Definition north_content : Reader :=
  mkReader Sample.two_fields [Sample.point_record; Sample.multipatch_record].

Definition south_content : Reader :=
  mkReader Sample.two_fields [Sample.polygon_record].

(** The same fields with a row that lacks its second value. *)
Definition short_content : Reader :=
  mkReader Sample.two_fields
    [Sample.point_record; mkShapeRecord (mkShape 5 Sample.five_points [0])
                                        [PyStr "gap"]].

Definition content_of (north_reader : Reader) (p : path) : option Reader :=
  if String.eqb (file p) "lot_boundary_north.shp" then Some north_reader
  else if String.eqb (file p) "lot_boundary_south.shp" then Some south_content
  else None.

Definition host (north_reader : Reader) : Script.Host path :=
  Script.mkHost path
    (fun _ p => match content_of north_reader p with
                | Some _ => true
                | None => false
                end)
    (fun _ p => content_of north_reader p)
    (fun _ _ => true)
    (fun _ => [north; gone; south]).

End Desk.

(** ** Facts on the Python primitives *)

Section PrimitiveFacts.

Context {A : Type}.

Lemma len_nonneg (xs : list A) : 0 <= len xs.
Proof. unfold len. lia. Qed.

Lemma getitem_nat (xs : list A) (i : nat) :
  getitem xs (Z.of_nat i) =
  match nth_error xs i with
  | Some x => Ok x
  | None => Raise IndexError
  end.
Proof.
  unfold getitem.
  destruct (Z.ltb_spec (Z.of_nat i) 0) as [Hneg | _]; [lia |].
  destruct (Z.ltb_spec (Z.of_nat i) 0) as [Hneg | _]; [lia |].
  now rewrite Nat2Z.id.
Qed.

Lemma slice_bound_within (n i : Z) : 0 <= i <= n -> slice_bound n i = i.
Proof.
  intros Hi. unfold slice_bound.
  destruct (Z.ltb_spec i 0); lia.
Qed.

Lemma slice_within (xs : list A) (lo hi : Z) :
  0 <= lo <= len xs -> 0 <= hi <= len xs ->
  slice xs lo hi = firstn (Z.to_nat (hi - lo)) (skipn (Z.to_nat lo) xs).
Proof.
  intros Hlo Hhi. unfold slice.
  now rewrite !slice_bound_within.
Qed.

Lemma slice_all (xs : list A) : slice xs 0 (len xs) = xs.
Proof.
  rewrite slice_within by (pose proof (len_nonneg xs); lia).
  rewrite Z.sub_0_r. unfold len. rewrite Nat2Z.id. simpl.
  apply firstn_all.
Qed.

(** Two adjacent slices glue back: a slice followed by the rest of the
    list is the list from the slice's start. *)
Lemma slice_then_rest (xs : list A) (lo hi : Z) :
  0 <= lo <= hi -> hi <= len xs ->
  slice xs lo hi ++ skipn (Z.to_nat hi) xs = skipn (Z.to_nat lo) xs.
Proof.
  intros Hlo Hhi.
  rewrite slice_within by lia.
  replace (Z.to_nat hi) with (Z.to_nat (hi - lo) + Z.to_nat lo)%nat by lia.
  rewrite <- skipn_skipn.
  apply firstn_skipn.
Qed.

Lemma slice_to_end (xs : list A) (lo : Z) :
  0 <= lo <= len xs -> slice xs lo (len xs) = skipn (Z.to_nat lo) xs.
Proof.
  intros Hlo.
  rewrite slice_within by lia.
  apply firstn_all2. rewrite length_skipn. unfold len in *. lia.
Qed.

End PrimitiveFacts.

(** ** Facts on the loops *)

Section LoopFacts.

Context {A S : Type}.
Variable body : A -> S -> result S.

Lemma for_each_app (xs ys : list A) (s : S) :
  for_each body (xs ++ ys) s = (s' <- for_each body xs s ;; for_each body ys s').
Proof.
  revert s. induction xs as [| x xs IH]; intros s; simpl.
  - reflexivity.
  - destruct (body x s) as [s1 | e]; simpl; [apply IH | reflexivity].
Qed.

(** A loop whose body changes nothing on some element skips that element. *)
Lemma for_each_skip (xs ys : list A) (x : A) (s : S) :
  (forall s', body x s' = Ok s') ->
  for_each body (xs ++ x :: ys) s = for_each body (xs ++ ys) s.
Proof.
  intros Hskip. rewrite !for_each_app.
  destruct (for_each body xs s) as [s1 | e]; simpl; [| reflexivity].
  now rewrite Hskip.
Qed.

End LoopFacts.

(** ** Facts on the part loop *)

Section PartFacts.

Variable shape : Shape.

Lemma add_part_nat (i : nat) (start : Z) (acc : list pyobj) :
  nth_error (parts shape) i = Some start ->
  add_part shape (Z.of_nat i) acc =
  Ok (acc ++ [PyList (slice (points shape) start (part_stop shape i))]).
Proof.
  intros Hstart. unfold add_part, part_stop.
  rewrite getitem_nat, Hstart. cbn [bind].
  assert (Hi : (i < List.length (parts shape))%nat)
    by (apply nth_error_Some; congruence).
  replace (Z.of_nat i + 1) with (Z.of_nat (S i)) by lia.
  rewrite getitem_nat. unfold len.
  destruct (Z.ltb_spec (Z.of_nat i) (Z.of_nat (List.length (parts shape)) - 1))
    as [Hlt | Hge].
  - destruct (nth_error (parts shape) (S i)) as [next |] eqn:Hnext.
    + reflexivity.
    + apply nth_error_None in Hnext. lia.
  - destruct (nth_error (parts shape) (S i)) as [next |] eqn:Hnext.
    + assert (S i < List.length (parts shape))%nat
        by (apply nth_error_Some; congruence).
      lia.
    + reflexivity.
Qed.

Lemma part_loop_from (n a : nat) (acc : list pyobj) :
  (a + n <= List.length (parts shape))%nat ->
  for_each (add_part shape) (map Z.of_nat (seq a n)) acc =
  Ok (acc ++ map (fun i => PyList (slice (points shape) (nth i (parts shape) 0)
                                          (part_stop shape i)))
                 (seq a n)).
Proof.
  revert a acc. induction n as [| n IH]; intros a acc Hbound; simpl.
  - now rewrite app_nil_r.
  - rewrite (add_part_nat a (nth a (parts shape) 0)).
    + simpl. rewrite IH by lia. now rewrite <- app_assoc.
    + apply nth_error_nth'. lia.
Qed.

(** The part loop never raises, and it collects the part slices in order. *)
Lemma split_parts_slices :
  split_parts shape = Ok (map PyList (part_slices shape)).
Proof.
  unfold split_parts, range, part_slices.
  rewrite part_loop_from by lia.
  simpl. now rewrite map_map.
Qed.

Lemma part_slices_length :
  List.length (part_slices shape) = List.length (parts shape).
Proof. unfold part_slices. now rewrite length_map, length_seq. Qed.

Lemma part_slices_nth (i : nat) (start : Z) :
  nth_error (parts shape) i = Some start ->
  nth_error (part_slices shape) i =
  Some (slice (points shape) start (part_stop shape i)).
Proof.
  intros Hstart.
  assert (Hi : (i < List.length (parts shape))%nat)
    by (apply nth_error_Some; congruence).
  unfold part_slices.
  rewrite nth_error_map, nth_error_seq.
  destruct (Nat.ltb_spec i (List.length (parts shape))) as [_ | Hge]; [| lia].
  simpl. now rewrite (nth_error_nth _ _ 0 Hstart).
Qed.

End PartFacts.

(** ** The part slices of a valid offset table cover the buffer *)

Section CoverFacts.

Variable pts : list pyobj.

Lemma part_slices_cut_from (ps : list Z) :
  map (fun i => slice pts (nth i ps 0)
                  match nth_error ps (S i) with
                  | Some next => next
                  | None => len pts
                  end)
      (seq 0 (List.length ps))
  = cut pts ps.
Proof.
  induction ps as [| a rest IH]; simpl; [reflexivity |].
  f_equal.
  - now destruct rest.
  - rewrite <- seq_shift, map_map. exact IH.
Qed.

Lemma strictly_increasing_tail (a : Z) (rest : list Z) :
  strictly_increasing (a :: rest) = true -> strictly_increasing rest = true.
Proof.
  destruct rest as [| b rest]; simpl; [reflexivity |].
  intros H. now apply andb_prop in H.
Qed.

Lemma concat_cut (ps : list Z) :
  ps <> [] ->
  strictly_increasing ps = true ->
  forallb (fun p => (0 <=? p) && (p <? len pts)) ps = true ->
  List.concat (cut pts ps) = skipn (Z.to_nat (hd 0 ps)) pts.
Proof.
  induction ps as [| a rest IH]; intros Hne Hinc Hin; [congruence |].
  simpl in Hin. apply andb_prop in Hin as [Ha Hrest].
  apply andb_prop in Ha as [Ha0 Ha1].
  apply Z.leb_le in Ha0. apply Z.ltb_lt in Ha1.
  destruct rest as [| b rest].
  - simpl. rewrite app_nil_r. apply slice_to_end. lia.
  - assert (Hab : a < b).
    { simpl in Hinc. apply andb_prop in Hinc as [Hab _]. now apply Z.ltb_lt. }
    assert (Hb : b < len pts).
    { simpl in Hrest. apply andb_prop in Hrest as [Hb _].
      apply andb_prop in Hb as [_ Hb]. now apply Z.ltb_lt. }
    change (List.concat (cut pts (a :: b :: rest)))
      with (slice pts a b ++ List.concat (cut pts (b :: rest))).
    rewrite IH; [| discriminate | now apply strictly_increasing_tail in Hinc
                 | exact Hrest].
    simpl hd. apply slice_then_rest; lia.
Qed.

End CoverFacts.

Lemma part_slices_cut (shape : Shape) :
  part_slices shape = cut (points shape) (parts shape).
Proof. unfold part_slices, part_stop. apply part_slices_cut_from. Qed.

Lemma part_slices_cover (shape : Shape) :
  valid_parts shape = true -> List.concat (part_slices shape) = points shape.
Proof.
  unfold valid_parts. intros Hvalid.
  apply andb_prop in Hvalid as [Hvalid Hin].
  apply andb_prop in Hvalid as [Hfirst Hinc].
  rewrite part_slices_cut, concat_cut; try assumption.
  - destruct (parts shape) as [| first rest]; [discriminate |].
    apply Z.eqb_eq in Hfirst. simpl. now subst first.
  - destruct (parts shape); [discriminate | congruence].
Qed.

(** With the single offset 0 the splitting rule gives back the whole buffer
    as the one part, which is what the one-part branches store. *)
Lemma part_slices_single (shape : Shape) :
  parts shape = [0] -> part_slices shape = [points shape].
Proof.
  intros Hparts. unfold part_slices, part_stop. rewrite Hparts. simpl.
  now rewrite slice_all.
Qed.

(** ** Facts on dictionaries *)

Section DictFacts.

Context {V : Type}.

Lemma dict_set_fresh (d : list (string * V)) (k : string) (v : V) :
  ~ In k (map fst d) -> dict_set d k v = d ++ [(k, v)].
Proof.
  induction d as [| [k' v'] d IH]; simpl; intros Hfresh; [reflexivity |].
  destruct (String.eqb_spec k' k) as [Heq | Hneq].
  - exfalso. apply Hfresh. now left.
  - f_equal. apply IH. intros Hin. apply Hfresh. now right.
Qed.

Lemma dict_get_set_same (d : list (string * V)) (k : string) (v : V) :
  dict_get (dict_set d k v) k = Some v.
Proof.
  induction d as [| [k' v'] d IH]; simpl.
  - now rewrite String.eqb_refl.
  - destruct (String.eqb_spec k' k) as [Heq | Hneq]; simpl.
    + subst k'. now rewrite String.eqb_refl.
    + destruct (String.eqb_spec k' k); [contradiction | exact IH].
Qed.

Lemma dict_get_set_other (d : list (string * V)) (k k' : string) (v : V) :
  k' <> k -> dict_get (dict_set d k' v) k = dict_get d k.
Proof.
  intros Hneq. induction d as [| [k0 v0] d IH]; simpl.
  - destruct (String.eqb_spec k' k); [contradiction | reflexivity].
  - destruct (String.eqb_spec k0 k') as [-> | Hk0]; simpl.
    + destruct (String.eqb_spec k' k); [contradiction | reflexivity].
    + destruct (String.eqb_spec k0 k); [reflexivity | exact IH].
Qed.

End DictFacts.

(** ** Facts on the attribute loop *)

Section AttributeFacts.

Lemma conversion_total (value : pyobj) :
  (if has_isoformat value then isoformat value else Ok value)
  = Ok (json_value value).
Proof. now destruct value. Qed.

Lemma json_value_other (value : pyobj) :
  has_isoformat value = false -> json_value value = value.
Proof. now destruct value. Qed.

Lemma set_property_at (pre rest : list pyobj) (value : pyobj) (name : string)
  (properties : list (string * pyobj)) :
  set_property (pre ++ value :: rest) (Z.of_nat (List.length pre), name) properties
  = Ok (dict_set properties name (json_value value)).
Proof.
  unfold set_property.
  rewrite getitem_nat, nth_error_app2, Nat.sub_diag by lia.
  cbn [nth_error bind]. now rewrite conversion_total.
Qed.

Lemma set_property_past (row : list pyobj) (name : string)
  (properties : list (string * pyobj)) :
  set_property row (Z.of_nat (List.length row), name) properties = Raise IndexError.
Proof.
  unfold set_property. rewrite getitem_nat.
  now rewrite (proj2 (nth_error_None row (List.length row)) (le_n _)).
Qed.

(** The attribute loop from position [length pre] on, when the rest of the
    row has a value for every remaining name. *)
Lemma property_loop_covered (names : list string) :
  forall (pre rest : list pyobj) (acc : list (string * pyobj)),
    (List.length names <= List.length rest)%nat ->
    for_each (set_property (pre ++ rest))
             (combine (map Z.of_nat (seq (List.length pre) (List.length names))) names)
             acc
    = Ok (fold_left store (combine names (map json_value rest)) acc).
Proof.
  induction names as [| name names IH]; intros pre rest acc Hlen.
  - reflexivity.
  - destruct rest as [| value rest]; [simpl in Hlen; lia |].
    cbn [List.length seq map combine for_each fold_left].
    rewrite set_property_at. cbn [bind].
    specialize (IH (pre ++ [value]) rest (store acc (name, json_value value))).
    rewrite <- app_assoc, length_app in IH. simpl in IH.
    rewrite Nat.add_1_r in IH. apply IH. simpl in Hlen. lia.
Qed.

(** The attribute loop raises as soon as the row runs out. *)
Lemma property_loop_short (names : list string) :
  forall (pre rest : list pyobj) (acc : list (string * pyobj)),
    (List.length rest < List.length names)%nat ->
    for_each (set_property (pre ++ rest))
             (combine (map Z.of_nat (seq (List.length pre) (List.length names))) names)
             acc
    = Raise IndexError.
Proof.
  induction names as [| name names IH]; intros pre rest acc Hlen.
  - simpl in Hlen. lia.
  - cbn [List.length seq map combine for_each].
    destruct rest as [| value rest].
    + rewrite app_nil_r, set_property_past. reflexivity.
    + rewrite set_property_at. cbn [bind].
      specialize (IH (pre ++ [value]) rest (store acc (name, json_value value))).
      rewrite <- app_assoc, length_app in IH. simpl in IH.
      rewrite Nat.add_1_r in IH. apply IH. simpl in Hlen. lia.
Qed.

Lemma properties_covered (names : list string) (row : list pyobj) :
  row_covers names row ->
  properties_of names row
  = Ok (fold_left store (combine names (map json_value row)) []).
Proof.
  intros Hlen. unfold properties_of, enumerate, range.
  exact (property_loop_covered names [] row [] Hlen).
Qed.

Lemma properties_short (names : list string) (row : list pyobj) :
  (List.length row < List.length names)%nat ->
  properties_of names row = Raise IndexError.
Proof.
  intros Hlen. unfold properties_of, enumerate, range.
  exact (property_loop_short names [] row [] Hlen).
Qed.

(** With distinct names every assignment adds a new key, so the loop lays
    the pairs out in field order. *)
Lemma fold_store_distinct (names : list string) :
  forall (values : list pyobj) (acc : list (string * pyobj)),
    NoDup names ->
    (forall k, In k names -> ~ In k (map fst acc)) ->
    fold_left store (combine names values) acc = acc ++ combine names values.
Proof.
  induction names as [| name names IH]; intros values acc Hnd Hfresh.
  - simpl. now rewrite app_nil_r.
  - destruct values as [| value values]; simpl; [now rewrite app_nil_r |].
    inversion Hnd as [| ? ? Hnotin Hnd']; subst.
    unfold store at 2. simpl fst. simpl snd.
    rewrite dict_set_fresh by (apply Hfresh; now left).
    rewrite IH; [now rewrite <- app_assoc | exact Hnd' |].
    intros k Hk. rewrite map_app, in_app_iff. simpl.
    intros [Hacc | [Heq | []]].
    + apply (Hfresh k); [now right | exact Hacc].
    + subst k. contradiction.
Qed.

(** Assignments to other names leave the value under a name as it is. *)
Lemma fold_store_other (kvs : list (string * pyobj)) :
  forall (acc : list (string * pyobj)) (k : string),
    ~ In k (map fst kvs) ->
    dict_get (fold_left store kvs acc) k = dict_get acc k.
Proof.
  induction kvs as [| [k' v'] kvs IH]; intros acc k Hfresh; simpl.
  - reflexivity.
  - rewrite IH by (intros Hin; apply Hfresh; now right).
    unfold store. simpl. apply dict_get_set_other.
    intros ->. apply Hfresh. now left.
Qed.

(** After the loop a name holds the value assigned at its last occurrence. *)
Lemma fold_store_last (names : list string) :
  forall (values : list pyobj) (acc : list (string * pyobj))
         (i : nat) (name : string) (value : pyobj),
    nth_error names i = Some name ->
    nth_error values i = Some value ->
    (forall j, (i < j)%nat -> nth_error names j <> Some name) ->
    dict_get (fold_left store (combine names values) acc) name = Some value.
Proof.
  induction names as [| n names IH]; intros values acc i name value Hn Hv Hlast.
  - now destruct i.
  - destruct values as [| x values]; [now destruct i |].
    destruct i as [| i]; simpl in Hn, Hv; simpl.
    + injection Hn as ->. injection Hv as ->.
      rewrite fold_store_other.
      * unfold store. simpl. apply dict_get_set_same.
      * intros Hin. apply in_map_iff in Hin as [[k v] [Hk Hin]].
        simpl in Hk. subst k. apply in_combine_l in Hin.
        apply In_nth_error in Hin as [j Hj].
        apply (Hlast (S j)); [lia | exact Hj].
    + apply (IH values _ i); try assumption.
      intros j Hj. apply (Hlast (S j)). lia.
Qed.

Lemma combine_firstn_row {X Y : Type} (xs : list X) :
  forall ys : list Y, combine xs (firstn (List.length xs) ys) = combine xs ys.
Proof.
  induction xs as [| x xs IH]; intros [| y ys]; simpl; try reflexivity.
  now rewrite IH.
Qed.

End AttributeFacts.

(** ** Facts on the geometry builder *)

Section GeometryFacts.

Variable shape : Shape.

Lemma geometry_unsupported :
  supported_type (shapeType shape) = false -> geometry_of shape = Ok PyNone.
Proof.
  unfold supported_type, geometry_of. intros Hno.
  apply orb_false_elim in Hno as [Hno H5].
  apply orb_false_elim in Hno as [H1 H3].
  now rewrite H1, H3, H5.
Qed.

(** Whatever the builder returns is [None] or a dictionary with the keys
    [type] and [coordinates], tagged with one of four names. *)
Lemma geometry_shape (geometry : pyobj) :
  geometry_of shape = Ok geometry ->
  (supported_type (shapeType shape) = false /\ geometry = PyNone)
  \/ (supported_type (shapeType shape) = true
      /\ exists tag coordinates,
           geometry = PyDict [("type", PyStr tag); ("coordinates", coordinates)]
           /\ In tag ["Point"; "LineString"; "MultiLineString"; "Polygon"]).
Proof.
  unfold geometry_of, supported_type, geometry_dict.
  destruct (shapeType shape =? 1) eqn:H1; simpl.
  { destruct (getitem (points shape) 0) as [p | e]; simpl; [| discriminate].
    intros [= <-]. right. split; [reflexivity |].
    exists "Point", p. simpl. auto. }
  destruct (shapeType shape =? 3) eqn:H3; simpl.
  { destruct (len (parts shape) =? 1).
    - intros [= <-]. right. split; [reflexivity |].
      exists "LineString", (PyList (points shape)). simpl. auto.
    - rewrite split_parts_slices. simpl. intros [= <-].
      right. split; [reflexivity |].
      exists "MultiLineString", (PyList (map PyList (part_slices shape))).
      simpl. auto. }
  destruct (shapeType shape =? 5) eqn:H5; simpl.
  { destruct (len (parts shape) =? 1).
    - intros [= <-]. right. split; [reflexivity |].
      exists "Polygon", (PyList [PyList (points shape)]). simpl. auto 6.
    - rewrite split_parts_slices. simpl. intros [= <-].
      right. split; [reflexivity |].
      exists "Polygon", (PyList (map PyList (part_slices shape))).
      simpl. auto 6. }
  intros [= <-]. now left.
Qed.

(** The builder returns a geometry for every supported shape, provided a
    Point shape has its point. *)
Lemma geometry_supported :
  supported_type (shapeType shape) = true ->
  (shapeType shape = 1 -> points shape <> []) ->
  exists geometry, geometry_of shape = Ok geometry /\ truthy geometry = true.
Proof.
  unfold geometry_of, supported_type, geometry_dict. intros Hsup Hpoint.
  destruct (Z.eqb_spec (shapeType shape) 1) as [H1 | H1].
  { destruct (points shape) as [| p rest] eqn:Hpts; [now elim (Hpoint H1) |].
    eexists. split; reflexivity. }
  destruct (shapeType shape =? 3).
  { destruct (len (parts shape) =? 1).
    - eexists. split; reflexivity.
    - rewrite split_parts_slices. eexists. split; reflexivity. }
  destruct (shapeType shape =? 5); [| discriminate].
  destruct (len (parts shape) =? 1).
  - eexists. split; reflexivity.
  - rewrite split_parts_slices. eexists. split; reflexivity.
Qed.

End GeometryFacts.

(** ** Facts on what [json] can encode *)

Section EncodingFacts.

Lemma getitem_In {A : Type} (xs : list A) (i : Z) (x : A) :
  getitem xs i = Ok x -> In x xs.
Proof.
  unfold getitem.
  destruct ((if i <? 0 then i + len xs else i) <? 0); [discriminate |].
  destruct (nth_error xs _) as [y |] eqn:Hnth; [| discriminate].
  intros [= <-]. eapply nth_error_In, Hnth.
Qed.

Lemma slice_incl {A : Type} (xs : list A) (lo hi : Z) :
  incl (slice xs lo hi) xs.
Proof.
  unfold slice. intros x Hx.
  rewrite <- (firstn_skipn (Z.to_nat (slice_bound (len xs) lo)) xs).
  apply in_or_app. right.
  rewrite <- (firstn_skipn (Z.to_nat (slice_bound (len xs) hi
                                      - slice_bound (len xs) lo))
                (skipn (Z.to_nat (slice_bound (len xs) lo)) xs)).
  apply in_or_app. left. exact Hx.
Qed.

Lemma encodable_list (items : list pyobj) :
  Forall encodable items -> serializable (PyList items) = true.
Proof. intros Hall. simpl. now apply forallb_forall, Forall_forall. Qed.

Lemma part_slices_encodable (shape : Shape) :
  Forall encodable (points shape) ->
  Forall encodable (map PyList (part_slices shape)).
Proof.
  intros Hpts. apply Forall_map. unfold part_slices. apply Forall_map.
  apply Forall_forall. intros i _. apply encodable_list.
  apply Forall_forall. intros p Hp.
  apply (proj1 (Forall_forall _ _) Hpts). eapply slice_incl, Hp.
Qed.

Lemma geometry_encodable (shape : Shape) (geometry : pyobj) :
  Forall encodable (points shape) ->
  geometry_of shape = Ok geometry ->
  serializable geometry = true.
Proof.
  intros Hpts. unfold geometry_of, geometry_dict.
  destruct (shapeType shape =? 1).
  { destruct (getitem (points shape) 0) as [p |] eqn:Hp; [| discriminate].
    intros [= <-]. simpl. rewrite andb_true_r.
    apply (proj1 (Forall_forall _ _) Hpts). eapply getitem_In, Hp. }
  assert (Hline : serializable (PyList (points shape)) = true)
    by now apply encodable_list.
  assert (Hparts : serializable (PyList (map PyList (part_slices shape))) = true)
    by now apply encodable_list, part_slices_encodable.
  destruct (shapeType shape =? 3).
  { destruct (len (parts shape) =? 1).
    - intros [= <-]. cbn [serializable forallb snd] in *. now rewrite Hline.
    - rewrite split_parts_slices. intros [= <-].
      cbn [serializable forallb snd] in *. now rewrite Hparts. }
  destruct (shapeType shape =? 5); [| now intros [= <-]].
  destruct (len (parts shape) =? 1).
  - intros [= <-]. cbn [serializable forallb snd] in *. now rewrite Hline.
  - rewrite split_parts_slices. intros [= <-].
    cbn [serializable forallb snd] in *. now rewrite Hparts.
Qed.

Lemma dict_set_encodable (d : list (string * pyobj)) (k : string) (v : pyobj) :
  forallb (fun kv => serializable (snd kv)) d = true ->
  serializable v = true ->
  forallb (fun kv => serializable (snd kv)) (dict_set d k v) = true.
Proof.
  intros Hd Hv. induction d as [| [k' v'] d IH]; simpl in *.
  - now rewrite Hv.
  - apply andb_prop in Hd as [Hv' Hd].
    destruct (String.eqb k' k); simpl.
    + now rewrite Hv, Hd.
    + now rewrite Hv', IH.
Qed.

Lemma property_loop_encodable (row : list pyobj) (entries : list (Z * string)) :
  Forall (fun v => encodable (json_value v)) row ->
  forall acc properties : list (string * pyobj),
    forallb (fun kv => serializable (snd kv)) acc = true ->
    for_each (set_property row) entries acc = Ok properties ->
    forallb (fun kv => serializable (snd kv)) properties = true.
Proof.
  intros Hrow. induction entries as [| [i name] entries IH];
    intros acc properties Hacc; simpl.
  - now intros [= <-].
  - destruct (getitem row i) as [value |] eqn:Hget; [| discriminate].
    cbn [bind]. rewrite conversion_total. cbn [bind].
    apply IH, dict_set_encodable; [exact Hacc |].
    apply (proj1 (Forall_forall _ _) Hrow). eapply getitem_In, Hget.
Qed.

Lemma built_encodable (names : list string) (shape_rec : ShapeRecord)
  (feature : pyobj) :
  json_ready shape_rec ->
  built_from names shape_rec feature ->
  serializable feature = true.
Proof.
  intros [Hpts Hrow] [geometry [props [Hgeo [Hprops ->]]]].
  cbn [serializable forallb snd].
  rewrite (geometry_encodable _ _ Hpts Hgeo).
  now rewrite (property_loop_encodable _ _ Hrow [] props eq_refl Hprops).
Qed.

Lemma collection_encodable (features : list pyobj) :
  Forall encodable features ->
  serializable (feature_collection features) = true.
Proof.
  intros Hall. unfold feature_collection. cbn [serializable forallb snd].
  change (forallb serializable features) with (serializable (PyList features)).
  now rewrite encodable_list.
Qed.

Lemma built_all_encodable (names : list string) (shape_recs : list ShapeRecord) :
  Forall json_ready shape_recs ->
  forall features : list pyobj,
    Forall2 (built_from names) (supported_records shape_recs) features ->
    Forall encodable features.
Proof.
  intros Hready features Hbuilt.
  assert (Hsub : Forall json_ready (supported_records shape_recs)).
  { apply Forall_forall. intros r Hr. apply filter_In in Hr as [Hr _].
    now apply (proj1 (Forall_forall _ _) Hready). }
  induction Hbuilt as [| r f rs fs Hf _ IH]; [constructor |].
  inversion Hsub; subst.
  constructor; [eapply built_encodable; eassumption | now apply IH].
Qed.

End EncodingFacts.

(** ** Facts on the record loop *)

Section DocumentFacts.

Variable names : list string.

Lemma geojson_init_empty : geojson_init = feature_collection [].
Proof. reflexivity. Qed.

Lemma append_feature_collection (features : list pyobj) (feature : pyobj) :
  append_feature (feature_collection features) feature
  = Ok (feature_collection (features ++ [feature])).
Proof. reflexivity. Qed.

Lemma feature_count_collection (features : list pyobj) :
  feature_count (feature_collection features) = Ok (len features).
Proof. reflexivity. Qed.

(** A record of unsupported type whose row covers the names leaves any
    document as it is. *)
Lemma convert_record_unsupported (shape_rec : ShapeRecord) (geojson : pyobj) :
  supported_type (shapeType (shape shape_rec)) = false ->
  row_covers names (record shape_rec) ->
  convert_record names shape_rec geojson = Ok geojson.
Proof.
  intros Hno Hrow. unfold convert_record.
  rewrite (properties_covered _ _ Hrow), (geometry_unsupported _ Hno).
  reflexivity.
Qed.

(** A well-formed record of supported type appends the one feature built
    from it. *)
Lemma convert_record_supported (shape_rec : ShapeRecord) (features : list pyobj) :
  supported_type (shapeType (shape shape_rec)) = true ->
  well_formed names shape_rec ->
  exists feature,
    built_from names shape_rec feature
    /\ convert_record names shape_rec (feature_collection features)
       = Ok (feature_collection (features ++ [feature])).
Proof.
  intros Hsup [Hrow Hpoint].
  destruct (geometry_supported _ Hsup Hpoint) as [geometry [Hgeo Htrue]].
  exists (feature_dict geometry
            (fold_left store (combine names (map json_value (record shape_rec))) [])).
  split.
  - exists geometry. eexists. split; [exact Hgeo |].
    split; [apply (properties_covered _ _ Hrow) | reflexivity].
  - unfold convert_record.
    rewrite (properties_covered _ _ Hrow), Hgeo. cbn [bind]. rewrite Htrue.
    apply append_feature_collection.
Qed.

(** Whenever one step of the record loop returns, either the record is of
    unsupported type and the document is as before, or it is of supported
    type and the feature built from it has been appended. *)
Lemma convert_record_cases (shape_rec : ShapeRecord) (features : list pyobj)
  (geojson : pyobj) :
  convert_record names shape_rec (feature_collection features) = Ok geojson ->
  (supported_type (shapeType (shape shape_rec)) = false
   /\ geojson = feature_collection features)
  \/ (supported_type (shapeType (shape shape_rec)) = true
      /\ exists feature,
           built_from names shape_rec feature
           /\ is_feature feature
           /\ geojson = feature_collection (features ++ [feature])).
Proof.
  unfold convert_record.
  destruct (properties_of names (record shape_rec)) as [props | e] eqn:Hprops;
    [| discriminate].
  destruct (geometry_of (shape shape_rec)) as [geometry | e] eqn:Hgeo;
    [| discriminate].
  cbn [bind].
  destruct (geometry_shape _ _ Hgeo)
    as [[Hno ->] | [Hsup [tag [coords [-> Htag]]]]].
  - simpl. intros [= <-]. now left.
  - cbn [truthy]. rewrite append_feature_collection. intros [= <-].
    right. split; [exact Hsup |]. eexists. split; [| split; [| reflexivity]].
    + exists (PyDict [("type", PyStr tag); ("coordinates", coords)]), props.
      now repeat split.
    + now exists tag, coords, props.
Qed.

(** Whenever the record loop returns, the document has gained the features
    built from the records of supported type, in the order of the records. *)
Lemma record_loop_built (shape_recs : list ShapeRecord) :
  forall (features : list pyobj) (geojson : pyobj),
    for_each (convert_record names) shape_recs (feature_collection features)
    = Ok geojson ->
    exists added,
      geojson = feature_collection (features ++ added)
      /\ Forall2 (built_from names) (supported_records shape_recs) added
      /\ Forall is_feature added.
Proof.
  induction shape_recs as [| r rest IH]; intros features geojson.
  - simpl. intros [= <-]. exists []. rewrite app_nil_r.
    repeat split; constructor.
  - cbn [for_each].
    destruct (convert_record names r (feature_collection features))
      as [doc |] eqn:Hstep; [| discriminate].
    cbn [bind]. intros Hrest. unfold supported_records. cbn [filter].
    destruct (convert_record_cases _ _ _ Hstep)
      as [[Hno ->] | [Hsup [f [Hbuilt [Hfeat ->]]]]].
    + rewrite Hno. apply (IH _ _ Hrest).
    + rewrite Hsup.
      destruct (IH _ _ Hrest) as [added [-> [Hall Hfeats]]].
      exists (f :: added). rewrite <- app_assoc.
      repeat split; [now constructor | now constructor].
Qed.

(** On well-formed records the loop returns, with one feature for each
    record of supported type, in the order of the records. *)
Lemma record_loop_well_formed (shape_recs : list ShapeRecord) :
  forall features : list pyobj,
    Forall (well_formed names) shape_recs ->
    exists added,
      for_each (convert_record names) shape_recs (feature_collection features)
      = Ok (feature_collection (features ++ added))
      /\ Forall2 (built_from names) (supported_records shape_recs) added.
Proof.
  induction shape_recs as [| r rest IH]; intros features Hwf.
  - exists []. rewrite app_nil_r. split; [reflexivity | constructor].
  - inversion Hwf as [| ? ? Hr Hrest]; subst.
    unfold supported_records. cbn [for_each filter].
    destruct (supported_type (shapeType (shape r))) eqn:Hsup.
    + destruct (convert_record_supported r features Hsup Hr) as [f [Hf Hstep]].
      destruct (IH (features ++ [f]) Hrest) as [added [Hloop Hall]].
      exists (f :: added). rewrite Hstep. cbn [bind]. rewrite Hloop.
      rewrite <- app_assoc. split; [reflexivity | now constructor].
    + destruct (IH features Hrest) as [added [Hloop Hall]].
      exists added.
      rewrite (convert_record_unsupported r _ Hsup (proj1 Hr)). cbn [bind].
      split; assumption.
Qed.

End DocumentFacts.

(** ** Facts on a whole run *)

Lemma run_of_build (sf : Reader) (features : list pyobj) :
  build_geojson sf = Ok (feature_collection features) ->
  Forall encodable features ->
  shp_to_geojson true sf
  = Ok (Some (mkConversion (mkDump (feature_collection features) 2)
                           (len features))).
Proof.
  intros Hbuild Hall. unfold shp_to_geojson, json_dump. simpl.
  rewrite Hbuild. cbn [bind].
  now rewrite (collection_encodable _ Hall).
Qed.

Lemma run_inversion (sf : Reader) (conversion : Conversion) :
  shp_to_geojson true sf = Ok (Some conversion) ->
  exists features : list pyobj,
    build_geojson sf = Ok (feature_collection features)
    /\ conversion = mkConversion (mkDump (feature_collection features) 2)
                                 (len features)
    /\ Forall2 (built_from (field_names sf))
               (supported_records (shapeRecords sf)) features
    /\ Forall is_feature features.
Proof.
  unfold shp_to_geojson, json_dump. simpl.
  destruct (build_geojson sf) as [geojson | e] eqn:Hbuild; [| discriminate].
  unfold build_geojson in Hbuild. rewrite geojson_init_empty in Hbuild.
  destruct (record_loop_built _ _ _ _ Hbuild) as [added [-> [Hall Hfeats]]].
  cbn [bind app].
  destruct (serializable (feature_collection added)); [| discriminate].
  cbn [bind]. rewrite feature_count_collection. cbn [bind].
  intros [= <-]. exists added. now repeat split.
Qed.

Lemma run_total (sf : Reader) :
  Forall (well_formed (field_names sf)) (shapeRecords sf) ->
  Forall json_ready (shapeRecords sf) ->
  exists features : list pyobj,
    shp_to_geojson true sf
    = Ok (Some (mkConversion (mkDump (feature_collection features) 2)
                             (len features))).
Proof.
  intros Hwf Hready.
  destruct (record_loop_well_formed (field_names sf) (shapeRecords sf) [] Hwf)
    as [features [Hloop Hall]].
  exists features. apply run_of_build.
  - unfold build_geojson. now rewrite geojson_init_empty.
  - eapply built_all_encodable; eassumption.
Qed.

(** ** The geometry builder *)

(** C5. A Point record (shape type 1) yields a geometry tagged [Point] whose
    coordinates are the first entry of the record's points, as it is. *)
Theorem point_geometry (shape : Shape) (p : pyobj) (rest : list pyobj) :
  shapeType shape = 1 ->
  points shape = p :: rest ->
  geometry_of shape = Ok (PyDict [("type", PyStr "Point"); ("coordinates", p)]).
Proof.
  intros Htype Hpts. unfold geometry_of. now rewrite Htype, Hpts.
Qed.

Lemma point_geometry_witness :
  geometry_of (shape Sample.point_record)
  = Ok (PyDict [("type", PyStr "Point"); ("coordinates", Sample.xy 7 9)]).
Proof.
  apply (point_geometry (shape Sample.point_record) (Sample.xy 7 9) []);
    reflexivity.
Defined.

(** C10. For a Point record the read of [points[0]] is in bounds exactly
    when the points sequence is not empty: then the builder returns the Point
    geometry of that entry; on an empty sequence the read raises
    [IndexError] and no geometry is produced. *)
Theorem point_access (shape : Shape) :
  shapeType shape = 1 ->
  (points shape <> [] ->
     exists p, getitem (points shape) 0 = Ok p
               /\ nth_error (points shape) 0 = Some p
               /\ geometry_of shape
                  = Ok (PyDict [("type", PyStr "Point"); ("coordinates", p)]))
  /\ (points shape = [] ->
        getitem (points shape) 0 = Raise IndexError
        /\ geometry_of shape = Raise IndexError).
Proof.
  intros Htype. unfold geometry_of. rewrite Htype. simpl. split.
  - destruct (points shape) as [| p rest]; [congruence |].
    intros _. exists p. repeat split.
  - intros ->. split; reflexivity.
Qed.

Lemma point_access_witness :
  (exists p, getitem [Sample.xy 7 9] 0 = Ok p
             /\ nth_error [Sample.xy 7 9] 0 = Some p
             /\ geometry_of (mkShape 1 [Sample.xy 7 9] [])
                = Ok (PyDict [("type", PyStr "Point"); ("coordinates", p)]))
  /\ getitem (@nil pyobj) 0 = Raise IndexError
  /\ geometry_of (mkShape 1 [] []) = Raise IndexError.
Proof.
  split.
  - apply (point_access (mkShape 1 [Sample.xy 7 9] []) eq_refl). discriminate.
  - apply (point_access (mkShape 1 [] []) eq_refl). reflexivity.
Defined.

(** C1. A Polyline record (shape type 3) with exactly one part yields a
    [LineString] whose coordinates are the record's points unchanged; with
    any other number of parts it yields a [MultiLineString] with one line per
    part, line [i] being the slice [points[parts[i]:stop]] where [stop] is
    [parts[i+1]], or [len(points)] for the last part. *)
Theorem polyline_geometry (shape : Shape) :
  shapeType shape = 3 ->
  (List.length (parts shape) = 1%nat ->
     geometry_of shape
     = Ok (PyDict [("type", PyStr "LineString");
                   ("coordinates", PyList (points shape))]))
  /\ (List.length (parts shape) <> 1%nat ->
        exists lines : list (list pyobj),
          geometry_of shape
          = Ok (PyDict [("type", PyStr "MultiLineString");
                        ("coordinates", PyList (map PyList lines))])
          /\ List.length lines = List.length (parts shape)
          /\ forall (i : nat) (start : Z),
               nth_error (parts shape) i = Some start ->
               nth_error lines i
               = Some (slice (points shape) start (part_stop shape i))).
Proof.
  intros Htype. unfold geometry_of, len. rewrite Htype. simpl. split.
  - intros ->. reflexivity.
  - intros Hmany.
    destruct (Z.eqb_spec (Z.of_nat (List.length (parts shape))) 1) as [H1 | _];
      [lia |].
    rewrite split_parts_slices. exists (part_slices shape).
    split; [reflexivity |].
    split; [apply part_slices_length | apply part_slices_nth].
Qed.

Lemma polyline_geometry_witness :
  geometry_of (mkShape 3 Sample.five_points [0])
  = Ok (PyDict [("type", PyStr "LineString");
                ("coordinates", PyList Sample.five_points)])
  /\ exists lines : list (list pyobj),
       geometry_of (mkShape 3 Sample.five_points [0; 3])
       = Ok (PyDict [("type", PyStr "MultiLineString");
                     ("coordinates", PyList (map PyList lines))])
       /\ List.length lines = 2%nat
       /\ nth_error lines 0 = Some (slice Sample.five_points 0 3)
       /\ nth_error lines 1 = Some (slice Sample.five_points 3 5).
Proof.
  split.
  - apply (polyline_geometry (mkShape 3 Sample.five_points [0]) eq_refl).
    reflexivity.
  - destruct (proj2 (polyline_geometry (mkShape 3 Sample.five_points [0; 3])
                       eq_refl))
      as [lines [Hgeo [Hlen Hnth]]]; [discriminate |].
    exists lines. split; [exact Hgeo |]. split; [exact Hlen |].
    split; [apply (Hnth 0%nat 0) | apply (Hnth 1%nat 3)]; reflexivity.
Defined.

(** C9. For a multi-part Polyline record whose offsets start at 0, increase
    strictly and lie within [0, len(points)), the lines of the
    [MultiLineString], put end to end, are the original points; so the
    coordinate counts of the lines add up to the number of points. *)
Theorem multipart_polyline_cover (shape : Shape) :
  shapeType shape = 3 ->
  List.length (parts shape) <> 1%nat ->
  valid_parts shape = true ->
  exists lines : list (list pyobj),
    geometry_of shape
    = Ok (PyDict [("type", PyStr "MultiLineString");
                  ("coordinates", PyList (map PyList lines))])
    /\ List.concat lines = points shape
    /\ list_sum (map (@List.length pyobj) lines) = List.length (points shape).
Proof.
  intros Htype Hmany Hvalid.
  exists (part_slices shape).
  assert (Hcover := part_slices_cover shape Hvalid).
  split; [| split; [exact Hcover |]].
  - unfold geometry_of, len. rewrite Htype. simpl.
    destruct (Z.eqb_spec (Z.of_nat (List.length (parts shape))) 1) as [H1 | _];
      [lia |].
    now rewrite split_parts_slices.
  - transitivity (List.length (List.concat (part_slices shape))).
    + symmetry. apply length_concat.
    + now rewrite Hcover.
Qed.

Lemma multipart_polyline_cover_witness :
  exists lines : list (list pyobj),
    geometry_of (mkShape 3 Sample.five_points [0; 3])
    = Ok (PyDict [("type", PyStr "MultiLineString");
                  ("coordinates", PyList (map PyList lines))])
    /\ List.concat lines = Sample.five_points
    /\ list_sum (map (@List.length pyobj) lines) = 5%nat.
Proof.
  apply (multipart_polyline_cover (mkShape 3 Sample.five_points [0; 3]));
    [reflexivity | discriminate | reflexivity].
Defined.

Lemma polygon_tagged (shape : Shape) (geometry : pyobj) :
  shapeType shape = 5 ->
  geometry_of shape = Ok geometry ->
  exists coordinates,
    geometry = PyDict [("type", PyStr "Polygon"); ("coordinates", coordinates)].
Proof.
  intros Htype. unfold geometry_of. rewrite Htype. simpl.
  destruct (len (parts shape) =? 1).
  - intros [= <-]. now eexists.
  - rewrite split_parts_slices. intros [= <-]. now eexists.
Qed.

Lemma never_multipolygon (shape : Shape) (geometry : pyobj) :
  geometry_of shape = Ok geometry ->
  item geometry "type" <> Some (PyStr "MultiPolygon").
Proof.
  intros Hgeo.
  destruct (geometry_shape _ _ Hgeo) as [[_ ->] | [_ [tag [coords [-> Htag]]]]].
  - discriminate.
  - simpl in Htag. simpl.
    destruct Htag as [<- | [<- | [<- | [<- | []]]]]; discriminate.
Qed.

(** C2. A Polygon record (shape type 5) with more than one part yields one
    geometry tagged [Polygon] whose rings are the part slices, cut by the
    rule of the polylines; with exactly one part the coordinates are the
    one-element list holding the points.  No shape ever yields a geometry
    tagged [MultiPolygon], and a Polygon record adds exactly one feature to
    the document. *)
Theorem polygon_geometry (shape : Shape) :
  shapeType shape = 5 ->
  (List.length (parts shape) = 1%nat ->
     geometry_of shape
     = Ok (PyDict [("type", PyStr "Polygon");
                   ("coordinates", PyList [PyList (points shape)])]))
  /\ ((1 < List.length (parts shape))%nat ->
        exists rings : list (list pyobj),
          geometry_of shape
          = Ok (PyDict [("type", PyStr "Polygon");
                        ("coordinates", PyList (map PyList rings))])
          /\ List.length rings = List.length (parts shape)
          /\ forall (i : nat) (start : Z),
               nth_error (parts shape) i = Some start ->
               nth_error rings i
               = Some (slice (points shape) start (part_stop shape i)))
  /\ (forall (any : Shape) (geometry : pyobj),
        geometry_of any = Ok geometry ->
        item geometry "type" <> Some (PyStr "MultiPolygon"))
  /\ (forall (names : list string) (row : list pyobj) (features : list pyobj),
        row_covers names row ->
        exists coordinates properties,
          geometry_of shape
          = Ok (PyDict [("type", PyStr "Polygon"); ("coordinates", coordinates)])
          /\ convert_record names (mkShapeRecord shape row)
                            (feature_collection features)
             = Ok (feature_collection
                     (features ++
                      [PyDict [("type", PyStr "Feature");
                               ("geometry",
                                PyDict [("type", PyStr "Polygon");
                                        ("coordinates", coordinates)]);
                               ("properties", PyDict properties)]]))).
Proof.
  intros Htype. repeat split.
  - intros Hone. unfold geometry_of, len. now rewrite Htype, Hone.
  - intros Hmany. unfold geometry_of, len. rewrite Htype. simpl.
    destruct (Z.eqb_spec (Z.of_nat (List.length (parts shape))) 1) as [H1 | _];
      [lia |].
    rewrite split_parts_slices. exists (part_slices shape).
    split; [reflexivity |].
    split; [apply part_slices_length | apply part_slices_nth].
  - apply never_multipolygon.
  - intros names row features Hrow.
    destruct (convert_record_supported names (mkShapeRecord shape row) features)
      as [feature [[geometry [props [Hgeo [_ ->]]]] Hstep]].
    + simpl. now rewrite Htype.
    + split; [exact Hrow | simpl; lia].
    + simpl in Hgeo.
      destruct (polygon_tagged _ _ Htype Hgeo) as [coords ->].
      now exists coords, props.
Qed.

Lemma polygon_geometry_witness :
  geometry_of (mkShape 5 Sample.five_points [0])
  = Ok (PyDict [("type", PyStr "Polygon");
                ("coordinates", PyList [PyList Sample.five_points])])
  /\ (exists rings : list (list pyobj),
        geometry_of (shape Sample.polygon_record)
        = Ok (PyDict [("type", PyStr "Polygon");
                      ("coordinates", PyList (map PyList rings))])
        /\ List.length rings = 2%nat
        /\ nth_error rings 0 = Some (slice Sample.eight_points 0 4)
        /\ nth_error rings 1 = Some (slice Sample.eight_points 4 8))
  /\ item (PyDict [("type", PyStr "Polygon");
                   ("coordinates", PyList [PyList Sample.five_points])]) "type"
     <> Some (PyStr "MultiPolygon")
  /\ exists coordinates properties,
       convert_record ["NAME"; "SURVEYED"] Sample.polygon_record
                      (feature_collection [])
       = Ok (feature_collection
               [PyDict [("type", PyStr "Feature");
                        ("geometry",
                         PyDict [("type", PyStr "Polygon");
                                 ("coordinates", coordinates)]);
                        ("properties", PyDict properties)]]).
Proof.
  split; [| split; [| split]].
  - apply (polygon_geometry (mkShape 5 Sample.five_points [0]) eq_refl).
    reflexivity.
  - destruct (proj1 (proj2 (polygon_geometry (shape Sample.polygon_record)
                              eq_refl)))
      as [rings [Hgeo [Hlen Hnth]]]; [simpl; lia |].
    exists rings. split; [exact Hgeo |]. split; [exact Hlen |].
    split; [apply (Hnth 0%nat 0) | apply (Hnth 1%nat 4)]; reflexivity.
  - apply (proj1 (proj2 (proj2 (polygon_geometry
                                  (mkShape 5 Sample.five_points [0]) eq_refl)))
             (mkShape 5 Sample.five_points [0])).
    reflexivity.
  - destruct (proj2 (proj2 (proj2 (polygon_geometry (shape Sample.polygon_record)
                                     eq_refl)))
                ["NAME"; "SURVEYED"] (record Sample.polygon_record) [])
      as [coords [props [_ Hstep]]]; [unfold row_covers; simpl; lia |].
    now exists coords, props.
Defined.

(** ** The attribute projector *)

(** C3, as the code has it.  The attribute loop raises [IndexError] when the
    row has fewer values than there are field names.  A row with more values
    is accepted: the loop returns the mapping of the row cut down to the
    first [len(field_names)] values. *)
Theorem row_arity (names : list string) (row : list pyobj) :
  ((List.length row < List.length names)%nat ->
     properties_of names row = Raise IndexError)
  /\ ((List.length names <= List.length row)%nat ->
        exists properties,
          properties_of names row = Ok properties
          /\ properties_of names (firstn (List.length names) row) = Ok properties).
Proof.
  split.
  - apply properties_short.
  - intros Hlen. eexists. split.
    + apply (properties_covered _ _ Hlen).
    + rewrite properties_covered.
      * now rewrite <- firstn_map, combine_firstn_row.
      * unfold row_covers. rewrite length_firstn. lia.
Qed.

Lemma row_arity_witness :
  properties_of ["NAME"; "SURVEYED"] [PyStr "well"] = Raise IndexError
  /\ exists properties,
       properties_of ["NAME"] [PyStr "well"; PyDate 2024 3 7] = Ok properties
       /\ properties_of ["NAME"] [PyStr "well"] = Ok properties.
Proof.
  split.
  - apply (proj1 (row_arity ["NAME"; "SURVEYED"] [PyStr "well"])). simpl. lia.
  - apply (proj2 (row_arity ["NAME"] [PyStr "well"; PyDate 2024 3 7])).
    simpl. lia.
Defined.

(** A row one value longer than the field-name list is projected without
    any failure, its last value dropped: an arity mismatch does not always
    make the projector fail. *)
Lemma long_row_accepted :
  (List.length [PyStr "well"; PyDate 2024 3 7] <> List.length ["NAME"]
   /\ properties_of ["NAME"] [PyStr "well"; PyDate 2024 3 7]
      = Ok [("NAME", PyStr "well")])
  /\ ~ (forall (names : list string) (row : list pyobj),
          List.length row <> List.length names ->
          exists e, properties_of names row = Raise e).
Proof.
  split; [split; [discriminate | reflexivity] |].
  intros Hclaim.
  destruct (Hclaim ["NAME"] [PyStr "well"; PyDate 2024 3 7]) as [e He];
    discriminate.
Qed.

(** When two fields carry the same name the second assignment overwrites the
    first: the name ends up bound to the later value, and the mapping has one
    entry for the two fields.  So a field name is not always bound to the row
    value at its own position. *)
Lemma repeated_name_overwrites :
  (nth_error ["NAME"; "NAME"] 0 = Some "NAME"
   /\ nth_error [PyStr "well"; PyStr "pump"] 0 = Some (PyStr "well")
   /\ properties_of ["NAME"; "NAME"] [PyStr "well"; PyStr "pump"]
      = Ok [("NAME", PyStr "pump")])
  /\ ~ (forall (names : list string) (row : list pyobj)
               (properties : list (string * pyobj)),
          properties_of names row = Ok properties ->
          forall (i : nat) (name : string) (value : pyobj),
            nth_error names i = Some name ->
            nth_error row i = Some value ->
            dict_get properties name = Some (json_value value)).
Proof.
  split; [repeat split |].
  intros Hclaim.
  specialize (Hclaim ["NAME"; "NAME"] [PyStr "well"; PyStr "pump"]
                _ eq_refl 0%nat "NAME" (PyStr "well") eq_refl eq_refl).
  discriminate.
Qed.

(** C6, as the code has it.  When the row has a value for every field name,
    the properties mapping binds each field name to the converted row value
    at the position of the name's last occurrence among the field names; when
    the field names are pairwise distinct that is the name's own position,
    and the entries are in field order.  The conversion replaces a date by
    its ISO-8601 text [YYYY-MM-DD] and leaves every other value as it is. *)
Theorem properties_in_field_order (names : list string) (row : list pyobj) :
  row_covers names row ->
  exists properties : list (string * pyobj),
    properties_of names row = Ok properties
    /\ (forall (i : nat) (name : string) (value : pyobj),
          nth_error names i = Some name ->
          nth_error row i = Some value ->
          (forall j, (i < j)%nat -> nth_error names j <> Some name) ->
          dict_get properties name = Some (json_value value))
    /\ (NoDup names -> properties = combine names (map json_value row))
    /\ (forall y m d : nat,
          json_value (PyDate y m d) = PyStr (date_isoformat y m d))
    /\ (forall value : pyobj,
          has_isoformat value = false -> json_value value = value).
Proof.
  intros Hrow. eexists. split; [apply (properties_covered _ _ Hrow) |].
  split; [| split; [| split]].
  - intros i name value Hname Hvalue Hlast.
    apply (fold_store_last names _ _ i); try assumption.
    now rewrite nth_error_map, Hvalue.
  - intros Hnd. rewrite fold_store_distinct; [reflexivity | exact Hnd | auto].
  - reflexivity.
  - apply json_value_other.
Qed.

Lemma properties_in_field_order_witness :
  properties_of ["NAME"; "SURVEYED"] [PyStr "well"; PyDate 2024 3 7]
  = Ok [("NAME", PyStr "well"); ("SURVEYED", PyStr "2024-03-07")]
  /\ exists properties : list (string * pyobj),
       properties_of ["NAME"; "NAME"] [PyStr "well"; PyStr "pump"] = Ok properties
       /\ dict_get properties "NAME" = Some (PyStr "pump").
Proof.
  split.
  - destruct (properties_in_field_order ["NAME"; "SURVEYED"]
                [PyStr "well"; PyDate 2024 3 7])
      as [properties [Hrun [_ [Hdistinct _]]]].
    + unfold row_covers. simpl. lia.
    + rewrite Hrun, Hdistinct; [reflexivity |].
      repeat constructor; simpl; intuition discriminate.
  - destruct (properties_in_field_order ["NAME"; "NAME"]
                [PyStr "well"; PyStr "pump"])
      as [properties [Hrun [Hlast _]]].
    + unfold row_covers. simpl. lia.
    + exists properties. split; [exact Hrun |].
      apply (Hlast 1%nat "NAME" (PyStr "pump")); try reflexivity.
      intros [| [| j]] Hj; try lia; now destruct j.
Defined.

(** ** The feature assembler and the document *)

(** C4. A record whose shape type is none of 1, 3, 5, with a row that covers
    the field names, adds no feature and raises nothing: the loop body
    returns the document it was given, and the run gives the same outcome,
    with the same feature count, as the run without that record, so the
    records after it are processed as before. *)
Theorem unsupported_record_skipped (flds : list Field)
  (before after : list ShapeRecord) (shape_rec : ShapeRecord) :
  supported_type (shapeType (shape shape_rec)) = false ->
  row_covers (map field_name (skipn 1 flds)) (record shape_rec) ->
  (forall geojson : pyobj,
     convert_record (map field_name (skipn 1 flds)) shape_rec geojson = Ok geojson)
  /\ build_geojson (mkReader flds (before ++ shape_rec :: after))
     = build_geojson (mkReader flds (before ++ after))
  /\ shp_to_geojson true (mkReader flds (before ++ shape_rec :: after))
     = shp_to_geojson true (mkReader flds (before ++ after)).
Proof.
  intros Hno Hrow.
  assert (Hskip : forall geojson : pyobj,
             convert_record (map field_name (skipn 1 flds)) shape_rec geojson
             = Ok geojson)
    by (intros geojson; now apply convert_record_unsupported).
  assert (Hbuild : build_geojson (mkReader flds (before ++ shape_rec :: after))
                   = build_geojson (mkReader flds (before ++ after)))
    by (unfold build_geojson, field_names; cbn [fields shapeRecords];
        now apply for_each_skip).
  split; [exact Hskip | split; [exact Hbuild |]].
  unfold shp_to_geojson. now rewrite Hbuild.
Qed.

Lemma unsupported_record_skipped_witness :
  convert_record ["NAME"; "SURVEYED"] Sample.multipatch_record geojson_init
  = Ok geojson_init
  /\ shp_to_geojson true
       (mkReader Sample.two_fields
          ([Sample.point_record] ++ Sample.multipatch_record
             :: [Sample.polyline_record]))
     = shp_to_geojson true
         (mkReader Sample.two_fields
            ([Sample.point_record] ++ [Sample.polyline_record])).
Proof.
  destruct (unsupported_record_skipped Sample.two_fields [Sample.point_record]
              [Sample.polyline_record] Sample.multipatch_record)
    as [Hbody [_ Hrun]].
  - reflexivity.
  - unfold row_covers. simpl. lia.
  - split; [apply Hbody | exact Hrun].
Defined.

(** C7. The document a run dumps is a dictionary with exactly the keys
    [type], [crs] and [features], in that order: [type] is
    ["FeatureCollection"], [crs] names the coordinate system [EPSG:4326], and
    [features] is a list of objects with exactly the keys [type] (=
    ["Feature"]), [geometry] (a [type] and [coordinates] pair, the type being
    one of the four geometry tags) and [properties]; it is dumped with
    [indent=2].  On well-formed records that [json] can encode the run does
    dump a document. *)
Theorem document_shape (sf : Reader) :
  (forall conversion : Conversion,
     shp_to_geojson true sf = Ok (Some conversion) ->
     dump_indent (written conversion) = 2
     /\ exists features : list pyobj,
          dump_obj (written conversion)
          = PyDict [("type", PyStr "FeatureCollection");
                    ("crs", PyDict [("type", PyStr "name");
                                    ("properties",
                                     PyDict [("name", PyStr "EPSG:4326")])]);
                    ("features", PyList features)]
          /\ Forall is_feature features
          /\ reported conversion = len features)
  /\ (Forall (well_formed (field_names sf)) (shapeRecords sf) ->
      Forall json_ready (shapeRecords sf) ->
      exists conversion : Conversion,
        shp_to_geojson true sf = Ok (Some conversion)).
Proof.
  split.
  - intros conversion Hrun.
    destruct (run_inversion _ _ Hrun) as [features [_ [-> [_ Hall]]]].
    split; [reflexivity |]. exists features. now repeat split.
  - intros Hwf Hready.
    destruct (run_total sf Hwf Hready) as [features Hrun].
    eexists. exact Hrun.
Qed.

Lemma document_shape_witness :
  exists conversion : Conversion,
    shp_to_geojson true
      (mkReader Sample.two_fields [Sample.point_record; Sample.polygon_record])
    = Ok (Some conversion)
    /\ dump_indent (written conversion) = 2
    /\ exists features : list pyobj,
         dump_obj (written conversion)
         = PyDict [("type", PyStr "FeatureCollection");
                   ("crs", PyDict [("type", PyStr "name");
                                   ("properties",
                                    PyDict [("name", PyStr "EPSG:4326")])]);
                   ("features", PyList features)]
         /\ Forall is_feature features
         /\ reported conversion = len features.
Proof.
  destruct (proj2 (document_shape
                     (mkReader Sample.two_fields
                        [Sample.point_record; Sample.polygon_record])))
    as [conversion Hrun].
  - repeat constructor; simpl; try lia; discriminate.
  - repeat constructor.
  - exists conversion. split; [exact Hrun |].
    exact (proj1 (document_shape _) conversion Hrun).
Defined.

(** C8. The [features] array of the document a run dumps holds exactly the
    features built from the records of supported type, one for each, in the
    order of the records; on well-formed records that [json] can encode the
    run does dump the document; and the outcome of a run is a function of the
    field names and the record sequence alone. *)
Theorem features_in_record_order (sf : Reader) :
  (forall conversion : Conversion,
     shp_to_geojson true sf = Ok (Some conversion) ->
     exists features : list pyobj,
       written conversion = mkDump (feature_collection features) 2
       /\ Forall2 (built_from (field_names sf))
                  (supported_records (shapeRecords sf)) features)
  /\ (Forall (well_formed (field_names sf)) (shapeRecords sf) ->
      Forall json_ready (shapeRecords sf) ->
      exists conversion : Conversion,
        shp_to_geojson true sf = Ok (Some conversion))
  /\ (forall other : Reader,
        field_names other = field_names sf ->
        shapeRecords other = shapeRecords sf ->
        shp_to_geojson true other = shp_to_geojson true sf).
Proof.
  split; [| split].
  - intros conversion Hrun.
    destruct (run_inversion _ _ Hrun) as [features [_ [-> [Hall _]]]].
    exists features. now split.
  - intros Hwf Hready.
    destruct (run_total sf Hwf Hready) as [features Hrun].
    eexists. exact Hrun.
  - intros other Hnames Hrecs.
    unfold shp_to_geojson, build_geojson. now rewrite Hnames, Hrecs.
Qed.

Lemma features_in_record_order_witness :
  exists (conversion : Conversion) (features : list pyobj),
    shp_to_geojson true
      (mkReader Sample.two_fields
         [Sample.point_record; Sample.polyline_record; Sample.multipatch_record])
    = Ok (Some conversion)
    /\ written conversion = mkDump (feature_collection features) 2
    /\ Forall2 (built_from ["NAME"; "SURVEYED"])
               [Sample.point_record; Sample.polyline_record] features.
Proof.
  pose (sf := mkReader Sample.two_fields
                [Sample.point_record; Sample.polyline_record;
                 Sample.multipatch_record]).
  destruct (proj1 (proj2 (features_in_record_order sf))) as [conversion Hrun].
  - repeat constructor; simpl; try lia; discriminate.
  - repeat constructor.
  - destruct (proj1 (features_in_record_order sf) conversion Hrun)
      as [features [Hdump Hall]].
    now exists conversion, features.
Defined.

(** ** Further properties of the geometry builder *)

Section LineShapeFacts.

Variable shape : Shape.

(** The tag the multi-part branch gives: lines for type 3, rings for type 5. *)
Lemma multipart_geometry (tag : string) :
  (shapeType shape = 3 /\ tag = "MultiLineString")
  \/ (shapeType shape = 5 /\ tag = "Polygon") ->
  List.length (parts shape) <> 1%nat ->
  geometry_of shape
  = Ok (PyDict [("type", PyStr tag);
                ("coordinates", PyList (map PyList (part_slices shape)))]).
Proof.
  intros Htag Hmany. unfold geometry_of, len.
  destruct (Z.eqb_spec (Z.of_nat (List.length (parts shape))) 1) as [H1 | _];
    [lia |].
  rewrite split_parts_slices.
  destruct Htag as [[-> ->] | [-> ->]]; reflexivity.
Qed.

Lemma slice_is_run {A : Type} (xs : list A) (lo hi : Z) :
  exists before after, xs = before ++ slice xs lo hi ++ after.
Proof.
  unfold slice.
  exists (firstn (Z.to_nat (slice_bound (len xs) lo)) xs).
  exists (skipn (Z.to_nat (slice_bound (len xs) hi - slice_bound (len xs) lo))
            (skipn (Z.to_nat (slice_bound (len xs) lo)) xs)).
  now rewrite !firstn_skipn.
Qed.

Lemma slice_length {A : Type} (xs : list A) (lo hi : Z) :
  0 <= lo -> 0 <= hi ->
  Z.of_nat (List.length (slice xs lo hi))
  = Z.max 0 (Z.min hi (len xs) - Z.min lo (len xs)).
Proof.
  intros Hlo Hhi. unfold slice, slice_bound.
  destruct (Z.ltb_spec lo 0); [lia |].
  destruct (Z.ltb_spec hi 0); [lia |].
  rewrite length_firstn, length_skipn. unfold len. lia.
Qed.

Lemma increasing_step (ps : list Z) :
  strictly_increasing ps = true ->
  forall (i : nat) (a b : Z),
    nth_error ps i = Some a -> nth_error ps (S i) = Some b -> a < b.
Proof.
  induction ps as [| p ps IH]; intros Hinc i a b Ha Hb; [now destruct i |].
  destruct i as [| i].
  - destruct ps as [| q ps]; [discriminate |].
    simpl in Ha, Hb, Hinc. injection Ha as <-. injection Hb as <-.
    apply andb_prop in Hinc as [Hlt _]. now apply Z.ltb_lt.
  - apply (IH (strictly_increasing_tail _ _ Hinc) i); assumption.
Qed.

Lemma valid_part_bounds (i : nat) (start : Z) :
  valid_parts shape = true ->
  nth_error (parts shape) i = Some start ->
  0 <= start < part_stop shape i /\ part_stop shape i <= len (points shape).
Proof.
  unfold valid_parts. intros Hvalid Hstart.
  apply andb_prop in Hvalid as [Hvalid Hin].
  apply andb_prop in Hvalid as [_ Hinc].
  assert (Hrange : forall j p, nth_error (parts shape) j = Some p ->
                               0 <= p < len (points shape)).
  { intros j p Hp. apply nth_error_In in Hp.
    apply (proj1 (forallb_forall _ _) Hin) in Hp.
    apply andb_prop in Hp as [H0 H1].
    apply Z.leb_le in H0. apply Z.ltb_lt in H1. lia. }
  pose proof (Hrange _ _ Hstart) as Hs.
  unfold part_stop.
  destruct (nth_error (parts shape) (S i)) as [next |] eqn:Hnext.
  - pose proof (Hrange _ _ Hnext). pose proof (increasing_step _ Hinc _ _ _ Hstart Hnext).
    lia.
  - lia.
Qed.

End LineShapeFacts.

(** X1. A Polyline or Polygon record never makes the geometry builder raise,
    whatever its offsets and points: it always yields a truthy geometry, so a
    record whose row covers the field names adds exactly one feature.  With
    no part at all the coordinates are the empty list. *)
Theorem line_shapes_always_built (shape : Shape) :
  shapeType shape = 3 \/ shapeType shape = 5 ->
  exists geometry : pyobj,
    geometry_of shape = Ok geometry
    /\ truthy geometry = true
    /\ (parts shape = [] -> item geometry "coordinates" = Some (PyList []))
    /\ forall (names : list string) (row features : list pyobj),
         row_covers names row ->
         exists properties,
           convert_record names (mkShapeRecord shape row)
                          (feature_collection features)
           = Ok (feature_collection
                   (features ++ [PyDict [("type", PyStr "Feature");
                                         ("geometry", geometry);
                                         ("properties", PyDict properties)]])).
Proof.
  intros Htype.
  assert (Hsup : supported_type (shapeType shape) = true)
    by (destruct Htype as [-> | ->]; reflexivity).
  assert (Hpoint : shapeType shape = 1 -> points shape <> [])
    by (destruct Htype as [-> | ->]; discriminate).
  destruct (geometry_supported _ Hsup Hpoint) as [geometry [Hgeo Htrue]].
  exists geometry. split; [exact Hgeo |]. split; [exact Htrue |]. split.
  - intros Hparts. revert Hgeo. unfold geometry_of, split_parts, len.
    rewrite Hparts.
    destruct Htype as [-> | ->]; simpl; now intros [= <-].
  - intros names row features Hrow.
    destruct (convert_record_supported names (mkShapeRecord shape row) features
                Hsup (conj Hrow Hpoint))
      as [feature [[g [props [Hg [_ ->]]]] Hstep]].
    simpl in Hg. rewrite Hgeo in Hg. injection Hg as <-.
    now exists props.
Qed.

Lemma line_shapes_always_built_witness :
  exists geometry : pyobj,
    geometry_of (mkShape 3 [] [7; -4; 2]) = Ok geometry
    /\ truthy geometry = true.
Proof.
  destruct (line_shapes_always_built (mkShape 3 [] [7; -4; 2]))
    as [geometry [Hgeo [Htrue _]]].
  - now left.
  - now exists geometry.
Defined.

(** X2. Every line of a multi-part Polyline and every ring of a multi-part
    Polygon is a contiguous run of the record's points, whatever the offsets:
    no coordinate is invented, changed or reordered. *)
Theorem parts_are_runs_of_points (shape : Shape) :
  shapeType shape = 3 \/ shapeType shape = 5 ->
  List.length (parts shape) <> 1%nat ->
  exists (tag : string) (lines : list (list pyobj)),
    geometry_of shape
    = Ok (PyDict [("type", PyStr tag);
                  ("coordinates", PyList (map PyList lines))])
    /\ Forall (fun line => exists before after,
                   points shape = before ++ line ++ after) lines.
Proof.
  intros Htype Hmany.
  exists (if shapeType shape =? 3 then "MultiLineString" else "Polygon").
  exists (part_slices shape). split.
  - apply multipart_geometry; [| exact Hmany].
    destruct Htype as [H | H]; rewrite H; simpl; auto.
  - unfold part_slices. apply Forall_map, Forall_forall.
    intros i _. apply slice_is_run.
Qed.

Lemma parts_are_runs_of_points_witness :
  exists (tag : string) (lines : list (list pyobj)),
    geometry_of (mkShape 5 Sample.eight_points [6; -3; 40])
    = Ok (PyDict [("type", PyStr tag);
                  ("coordinates", PyList (map PyList lines))])
    /\ Forall (fun line => exists before after,
                   Sample.eight_points = before ++ line ++ after) lines.
Proof.
  apply (parts_are_runs_of_points (mkShape 5 Sample.eight_points [6; -3; 40]));
    [now right | discriminate].
Defined.

(** X3. Under the invariant of the offsets (first offset 0, strictly
    increasing, all below [len(points)]) part [i] of a multi-part Polyline or
    Polygon holds exactly [stop - start] points, where [stop] is the next
    offset or [len(points)]; in particular no line or ring is empty. *)
Theorem valid_parts_lengths (shape : Shape) :
  shapeType shape = 3 \/ shapeType shape = 5 ->
  List.length (parts shape) <> 1%nat ->
  valid_parts shape = true ->
  exists (tag : string) (lines : list (list pyobj)),
    geometry_of shape
    = Ok (PyDict [("type", PyStr tag);
                  ("coordinates", PyList (map PyList lines))])
    /\ forall (i : nat) (start : Z),
         nth_error (parts shape) i = Some start ->
         exists line,
           nth_error lines i = Some line
           /\ Z.of_nat (List.length line) = part_stop shape i - start
           /\ line <> [].
Proof.
  intros Htype Hmany Hvalid.
  exists (if shapeType shape =? 3 then "MultiLineString" else "Polygon").
  exists (part_slices shape). split.
  - apply multipart_geometry; [| exact Hmany].
    destruct Htype as [H | H]; rewrite H; simpl; auto.
  - intros i start Hstart.
    destruct (valid_part_bounds _ _ _ Hvalid Hstart) as [Hlo Hhi].
    exists (slice (points shape) start (part_stop shape i)).
    split; [now apply part_slices_nth |].
    assert (Hlen : Z.of_nat (List.length (slice (points shape) start
                                            (part_stop shape i)))
                   = part_stop shape i - start)
      by (rewrite slice_length; lia).
    split; [exact Hlen |].
    intros Hnil. rewrite Hnil in Hlen. simpl in Hlen. lia.
Qed.

Lemma valid_parts_lengths_witness :
  exists (tag : string) (lines : list (list pyobj)),
    geometry_of (shape Sample.polygon_record)
    = Ok (PyDict [("type", PyStr tag);
                  ("coordinates", PyList (map PyList lines))])
    /\ exists line,
         nth_error lines 1 = Some line
         /\ Z.of_nat (List.length line) = 8 - 4
         /\ line <> [].
Proof.
  destruct (valid_parts_lengths (shape Sample.polygon_record))
    as [tag [lines [Hgeo Hlines]]];
    [now right | discriminate | reflexivity |].
  exists tag, lines. split; [exact Hgeo |].
  apply (Hlines 1%nat 4). reflexivity.
Defined.

(** X4. With non-negative offsets of any size and order, part [i] holds
    [max 0 (min stop n - min start n)] points, [n] being [len(points)]: an
    offset past the end is clamped instead of raising, and a part whose stop
    is not above its start is an empty line. *)
Theorem part_length_clamped (shape : Shape) :
  shapeType shape = 3 \/ shapeType shape = 5 ->
  List.length (parts shape) <> 1%nat ->
  Forall (fun p => 0 <= p) (parts shape) ->
  exists (tag : string) (lines : list (list pyobj)),
    geometry_of shape
    = Ok (PyDict [("type", PyStr tag);
                  ("coordinates", PyList (map PyList lines))])
    /\ forall (i : nat) (start : Z),
         nth_error (parts shape) i = Some start ->
         exists line,
           nth_error lines i = Some line
           /\ Z.of_nat (List.length line)
              = Z.max 0 (Z.min (part_stop shape i) (len (points shape))
                         - Z.min start (len (points shape)))
           /\ (part_stop shape i <= start -> line = []).
Proof.
  intros Htype Hmany Hpos.
  exists (if shapeType shape =? 3 then "MultiLineString" else "Polygon").
  exists (part_slices shape). split.
  - apply multipart_geometry; [| exact Hmany].
    destruct Htype as [H | H]; rewrite H; simpl; auto.
  - intros i start Hstart.
    assert (H0 : 0 <= start)
      by (eapply (proj1 (Forall_forall _ _) Hpos), nth_error_In, Hstart).
    assert (H1 : 0 <= part_stop shape i).
    { unfold part_stop.
      destruct (nth_error (parts shape) (S i)) as [next |] eqn:Hnext.
      - eapply (proj1 (Forall_forall _ _) Hpos), nth_error_In, Hnext.
      - apply len_nonneg. }
    exists (slice (points shape) start (part_stop shape i)).
    split; [now apply part_slices_nth |].
    pose proof (slice_length (points shape) start (part_stop shape i) H0 H1)
      as Hlen.
    split; [exact Hlen |].
    intros Hle.
    destruct (slice (points shape) start (part_stop shape i)) as [| p rest];
      [reflexivity |].
    simpl List.length in Hlen. lia.
Qed.

Lemma part_length_clamped_witness :
  exists (tag : string) (lines : list (list pyobj)),
    geometry_of (mkShape 3 Sample.five_points [4; 2; 9])
    = Ok (PyDict [("type", PyStr tag);
                  ("coordinates", PyList (map PyList lines))])
    /\ (exists line, nth_error lines 0 = Some line /\ line = [])
    /\ (exists line, nth_error lines 1 = Some line
                     /\ Z.of_nat (List.length line) = 3).
Proof.
  destruct (part_length_clamped (mkShape 3 Sample.five_points [4; 2; 9]))
    as [tag [lines [Hgeo Hlines]]].
  - now left.
  - discriminate.
  - repeat constructor; simpl; lia.
  - exists tag, lines. split; [exact Hgeo |]. split.
    + destruct (Hlines 0%nat 4 eq_refl) as [line [Hnth [_ Hempty]]].
      exists line. split; [exact Hnth |]. apply Hempty.
      unfold part_stop. simpl. lia.
    + destruct (Hlines 1%nat 2 eq_refl) as [line [Hnth [Hlen _]]].
      exists line. split; [exact Hnth |]. rewrite Hlen. reflexivity.
Defined.

(** ** Further properties of the attribute loop *)

Section PropertyInvariants.

Lemma dict_set_values (P : pyobj -> Prop) (d : list (string * pyobj))
  (k : string) (v : pyobj) :
  Forall (fun kv => P (snd kv)) d -> P v ->
  Forall (fun kv => P (snd kv)) (dict_set d k v).
Proof.
  intros Hd Hv. induction Hd as [| [k' v'] d Hv' Hd IH]; simpl.
  - now constructor.
  - destruct (String.eqb k' k); constructor; assumption.
Qed.

Lemma dict_set_keys (d : list (string * pyobj)) (k : string) (v : pyobj) :
  forall k', In k' (map fst (dict_set d k v)) <-> k' = k \/ In k' (map fst d).
Proof.
  intros k'. induction d as [| [k0 v0] d IH]; simpl.
  - intuition.
  - destruct (String.eqb_spec k0 k) as [-> | Hneq]; simpl.
    + intuition.
    + rewrite IH. intuition.
Qed.

Lemma dict_set_nodup (d : list (string * pyobj)) (k : string) (v : pyobj) :
  NoDup (map fst d) -> NoDup (map fst (dict_set d k v)).
Proof.
  induction d as [| [k0 v0] d IH]; simpl; intros Hnd.
  - repeat constructor. intros [].
  - inversion Hnd as [| ? ? Hnotin Hnd']; subst.
    destruct (String.eqb_spec k0 k) as [-> | Hneq]; simpl.
    + now constructor.
    + constructor; [| now apply IH].
      rewrite dict_set_keys. intros [Heq | Hin]; [now subst | contradiction].
Qed.

Lemma json_value_not_date (value : pyobj) :
  has_isoformat (json_value value) = false.
Proof. now destruct value. Qed.

(** What the attribute loop keeps true of the mapping, from any start. *)
Lemma property_loop_invariant (row : list pyobj) (entries : list (Z * string)) :
  forall acc properties : list (string * pyobj),
    for_each (set_property row) entries acc = Ok properties ->
    (Forall (fun kv => has_isoformat (snd kv) = false) acc ->
     Forall (fun kv => has_isoformat (snd kv) = false) properties)
    /\ (NoDup (map fst acc) -> NoDup (map fst properties))
    /\ (forall k, In k (map fst properties)
                  <-> In k (map fst acc) \/ In k (map snd entries)).
Proof.
  induction entries as [| [i name] entries IH]; intros acc properties; simpl.
  - intros [= <-]. intuition.
  - destruct (getitem row i) as [value |]; [| discriminate].
    cbn [bind]. rewrite conversion_total. cbn [bind]. intros Hloop.
    destruct (IH _ _ Hloop) as [Hdate [Hnd Hkeys]].
    split; [| split].
    + intros Hacc. apply Hdate.
      apply (dict_set_values (fun v => has_isoformat v = false));
        [exact Hacc | apply json_value_not_date].
    + intros Hacc. now apply Hnd, dict_set_nodup.
    + intros k. rewrite Hkeys, dict_set_keys. intuition.
Qed.

Lemma enumerate_names (names : list string) :
  map snd (enumerate names) = names.
Proof.
  unfold enumerate, range.
  assert (H : forall a, map snd (combine (map Z.of_nat (seq a (List.length names)))
                                   names) = names).
  { induction names as [| n names IH]; intros a; simpl; [reflexivity |].
    now rewrite IH. }
  apply H.
Qed.

End PropertyInvariants.



(** X6. Whenever the attribute loop returns, the keys of the properties are
    exactly the field names, each key occurring once: a repeated field name
    gives one entry, so the mapping never has more entries than there are
    field names. *)
Theorem properties_keys (names : list string) (row : list pyobj)
  (properties : list (string * pyobj)) :
  properties_of names row = Ok properties ->
  NoDup (map fst properties)
  /\ (forall k, In k (map fst properties) <-> In k names)
  /\ (List.length properties <= List.length names)%nat.
Proof.
  intros Hrun.
  destruct (property_loop_invariant _ _ _ _ Hrun) as [_ [Hnd Hkeys]].
  specialize (Hnd (NoDup_nil _)).
  assert (Hin : forall k, In k (map fst properties) <-> In k names).
  { intros k. rewrite Hkeys, enumerate_names. simpl. intuition. }
  split; [exact Hnd |]. split; [exact Hin |].
  rewrite <- (length_map fst).
  apply NoDup_incl_length; [exact Hnd |].
  intros k Hk. now apply Hin.
Qed.

Lemma properties_keys_witness :
  NoDup (map fst [("NAME", PyStr "pump")])
  /\ (forall k, In k (map fst [("NAME", PyStr "pump")])
                <-> In k ["NAME"; "NAME"])
  /\ (List.length [("NAME", PyStr "pump")] <= List.length ["NAME"; "NAME"])%nat.
Proof.
  apply (properties_keys ["NAME"; "NAME"] [PyStr "well"; PyStr "pump"]).
  reflexivity.
Defined.

(** ** Further properties of the record loop *)

Section RunFacts.

Variable names : list string.

(** One step of the loop does the same to every document: it raises the
    same exception, or it appends the same features. *)
Lemma convert_record_uniform (shape_rec : ShapeRecord) :
  (forall features,
     convert_record names shape_rec (feature_collection features)
     = Raise IndexError)
  \/ (exists added,
        forall features,
          convert_record names shape_rec (feature_collection features)
          = Ok (feature_collection (features ++ added))).
Proof.
  unfold convert_record.
  destruct (Nat.le_gt_cases (List.length names) (List.length (record shape_rec)))
    as [Hrow | Hshort].
  - rewrite (properties_covered names _ Hrow). cbn [bind].
    destruct (geometry_of (shape shape_rec)) as [geometry | e] eqn:Hgeo.
    + right. cbn [bind]. destruct (truthy geometry).
      * eexists [_]. intros features. apply append_feature_collection.
      * exists []. intros features. now rewrite app_nil_r.
    + left. intros features. cbn [bind]. f_equal.
      revert Hgeo. unfold geometry_of.
      destruct (shapeType (shape shape_rec) =? 1).
      { unfold getitem. simpl.
        destruct (points (shape shape_rec)); simpl; [now intros [= <-] |
                                                       discriminate]. }
      destruct (shapeType (shape shape_rec) =? 3).
      { destruct (len (parts (shape shape_rec)) =? 1); [discriminate |].
        rewrite split_parts_slices. discriminate. }
      destruct (shapeType (shape shape_rec) =? 5); [| discriminate].
      destruct (len (parts (shape shape_rec)) =? 1); [discriminate |].
      rewrite split_parts_slices. discriminate.
  - left. intros features. now rewrite (properties_short names _ Hshort).
Qed.

Lemma record_loop_uniform (shape_recs : list ShapeRecord) :
  (forall features,
     for_each (convert_record names) shape_recs (feature_collection features)
     = Raise IndexError)
  \/ (exists added,
        forall features,
          for_each (convert_record names) shape_recs (feature_collection features)
          = Ok (feature_collection (features ++ added))).
Proof.
  induction shape_recs as [| r rest IH].
  - right. exists []. intros features. simpl. now rewrite app_nil_r.
  - cbn [for_each].
    destruct (convert_record_uniform r) as [Hraise | [a1 Hstep]].
    + left. intros features. now rewrite Hraise.
    + destruct IH as [Hraise | [a2 Hrest]].
      * left. intros features. rewrite Hstep. cbn [bind]. apply Hraise.
      * right. exists (a1 ++ a2). intros features.
        rewrite Hstep. cbn [bind]. rewrite Hrest. now rewrite app_assoc.
Qed.

(** A record that is not well-formed makes its step raise [IndexError]. *)
Lemma convert_record_ill_formed (shape_rec : ShapeRecord) (geojson : pyobj) :
  ~ well_formed names shape_rec ->
  convert_record names shape_rec geojson = Raise IndexError.
Proof.
  intros Hbad. unfold convert_record.
  destruct (Nat.le_gt_cases (List.length names) (List.length (record shape_rec)))
    as [Hrow | Hshort].
  - rewrite (properties_covered names _ Hrow). cbn [bind].
    unfold geometry_of.
    destruct (Z.eqb_spec (shapeType (shape shape_rec)) 1) as [H1 | H1].
    + destruct (points (shape shape_rec)) as [| p rest] eqn:Hpts;
        [reflexivity |].
      exfalso. apply Hbad. split; [exact Hrow |]. intros _. now rewrite Hpts.
    + exfalso. apply Hbad. split; [exact Hrow |]. intros H. contradiction.
  - now rewrite (properties_short names _ Hshort).
Qed.

Lemma record_loop_ill_formed (shape_recs : list ShapeRecord) :
  Exists (fun r => ~ well_formed names r) shape_recs ->
  forall features,
    for_each (convert_record names) shape_recs (feature_collection features)
    = Raise IndexError.
Proof.
  intros Hbad.
  induction Hbad as [r rest Hr | r rest _ IH]; intros features; cbn [for_each].
  - now rewrite (convert_record_ill_formed _ _ Hr).
  - destruct (convert_record_uniform r) as [Hraise | [added Hstep]].
    + now rewrite Hraise.
    + rewrite Hstep. cbn [bind]. apply IH.
Qed.

End RunFacts.

(** X7. The record loop either builds the whole document or raises
    [IndexError], and it raises exactly when some record is not well-formed
    (a row shorter than the field-name list, or a Point shape without a
    point): then no document is built, whatever the other records are. *)
Theorem build_fails_on_ill_formed (sf : Reader) :
  (Forall (well_formed (field_names sf)) (shapeRecords sf) ->
     exists features, build_geojson sf = Ok (feature_collection features))
  /\ (Exists (fun r => ~ well_formed (field_names sf) r) (shapeRecords sf) ->
        build_geojson sf = Raise IndexError
        /\ shp_to_geojson true sf = Raise IndexError)
  /\ (forall e, build_geojson sf = Raise e -> e = IndexError).
Proof.
  unfold build_geojson. rewrite geojson_init_empty. split; [| split].
  - intros Hwf.
    destruct (record_loop_well_formed _ _ [] Hwf) as [features [Hloop _]].
    now exists features.
  - intros Hbad.
    assert (Hloop := record_loop_ill_formed _ _ Hbad []).
    split; [exact Hloop |].
    unfold shp_to_geojson, build_geojson. simpl.
    rewrite geojson_init_empty. now rewrite Hloop.
  - intros e.
    destruct (record_loop_uniform (field_names sf) (shapeRecords sf))
      as [Hraise | [added Hok]].
    + rewrite Hraise. now intros [= <-].
    + rewrite Hok. discriminate.
Qed.

Lemma build_fails_on_ill_formed_witness :
  (exists features,
     build_geojson (mkReader Sample.two_fields
                      [Sample.point_record; Sample.polygon_record])
     = Ok (feature_collection features))
  /\ shp_to_geojson true
       (mkReader Sample.two_fields
          [Sample.point_record;
           mkShapeRecord (mkShape 0 [] []) [PyStr "gap"];
           Sample.polygon_record])
     = Raise IndexError.
Proof.
  split.
  - apply (proj1 (build_fails_on_ill_formed
                    (mkReader Sample.two_fields
                       [Sample.point_record; Sample.polygon_record]))).
    repeat constructor; simpl; try lia; discriminate.
  - apply (proj1 (proj2 (build_fails_on_ill_formed
                           (mkReader Sample.two_fields
                              [Sample.point_record;
                               mkShapeRecord (mkShape 0 [] []) [PyStr "gap"];
                               Sample.polygon_record])))).
    apply Exists_cons_tl, Exists_cons_hd.
    intros [Hrow _]. unfold row_covers in Hrow. simpl in Hrow. lia.
Defined.

(** X8. Whenever a run dumps a document, the feature count it reports is the
    number of records whose shape type is 1, 3 or 5; it never exceeds the
    number of records. *)
Theorem reported_counts_supported (sf : Reader) (conversion : Conversion) :
  shp_to_geojson true sf = Ok (Some conversion) ->
  reported conversion = len (supported_records (shapeRecords sf))
  /\ reported conversion <= len (shapeRecords sf).
Proof.
  intros Hrun.
  destruct (run_inversion _ _ Hrun) as [features [_ [-> [Hall _]]]].
  simpl. unfold len. rewrite <- (Forall2_length Hall).
  split; [reflexivity |].
  apply inj_le. unfold supported_records. apply filter_length_le.
Qed.

Lemma reported_counts_supported_witness :
  exists conversion : Conversion,
    shp_to_geojson true
      (mkReader Sample.two_fields
         [Sample.point_record; Sample.polyline_record; Sample.multipatch_record])
    = Ok (Some conversion)
    /\ reported conversion = 2.
Proof.
  eexists. split; [reflexivity |].
  apply (reported_counts_supported
           (mkReader Sample.two_fields
              [Sample.point_record; Sample.polyline_record;
               Sample.multipatch_record])).
  reflexivity.
Defined.

(** X9. Records are converted independently of each other: the document of
    two record sequences put end to end holds the features of the first
    followed by the features of the second, and it fails as soon as one of
    the two fails. *)
Theorem records_compose (flds : list Field) (first second : list ShapeRecord) :
  (forall f1 f2,
     build_geojson (mkReader flds first) = Ok (feature_collection f1) ->
     build_geojson (mkReader flds second) = Ok (feature_collection f2) ->
     build_geojson (mkReader flds (first ++ second))
     = Ok (feature_collection (f1 ++ f2)))
  /\ (forall e,
        build_geojson (mkReader flds first) = Raise e ->
        build_geojson (mkReader flds (first ++ second)) = Raise e)
  /\ (forall f1 e,
        build_geojson (mkReader flds first) = Ok (feature_collection f1) ->
        build_geojson (mkReader flds second) = Raise e ->
        build_geojson (mkReader flds (first ++ second)) = Raise e).
Proof.
  unfold build_geojson, field_names. cbn [fields shapeRecords].
  rewrite geojson_init_empty, for_each_app.
  set (names := map field_name (skipn 1 flds)).
  destruct (record_loop_uniform names first) as [H1 | [a1 H1]]; rewrite H1.
  - cbn [bind]. split; [intros f1 f2 Hf; discriminate |].
    split; [intros e He; exact He | intros f1 e Hf; discriminate].
  - cbn [bind app].
    destruct (record_loop_uniform names second) as [H2 | [a2 H2]];
      rewrite !H2; cbn [app].
    + split; [intros f1 f2 _ Hf; discriminate |].
      split; [intros e He; discriminate | intros f1 e _ He; exact He].
    + split; [| split; intros; discriminate].
      intros f1 f2 Hf1 Hf2. injection Hf1 as <-. injection Hf2 as <-.
      reflexivity.
Qed.

Lemma records_compose_witness :
  exists f1 f2,
    build_geojson (mkReader Sample.two_fields [Sample.point_record])
    = Ok (feature_collection f1)
    /\ build_geojson (mkReader Sample.two_fields
                        [Sample.multipatch_record; Sample.polygon_record])
       = Ok (feature_collection f2)
    /\ build_geojson (mkReader Sample.two_fields
                        ([Sample.point_record]
                           ++ [Sample.multipatch_record; Sample.polygon_record]))
       = Ok (feature_collection (f1 ++ f2)).
Proof.
  eexists. eexists. split; [reflexivity |]. split; [reflexivity |].
  apply (proj1 (records_compose Sample.two_fields [Sample.point_record]
                  [Sample.multipatch_record; Sample.polygon_record]));
    reflexivity.
Defined.

(** ** Facts on the script *)

Section ScriptFacts.

Import Script.

Context {path : Type}.
Variable lib : Pathlib path.
Variable h : Host path.



Lemma build_ill_formed (sf : Reader) :
  Exists (fun r => ~ well_formed (field_names sf) r) (shapeRecords sf) ->
  build_geojson sf = Raise IndexError.
Proof.
  intros Hbad. unfold build_geojson. rewrite geojson_init_empty.
  apply (record_loop_ill_formed _ _ Hbad).
Qed.

(** [shp_to_geojson] step by step: each question to the host with the events
    at the time it is asked, and the events left behind at each exit. *)
Lemma shp_to_geojson_steps (shp_path : path) (geojson_path : option path)
  (t : list (event path)) :
  shp_to_geojson lib h shp_path geojson_path t
  = if negb (host_exists h t shp_path) then
      (t ++ [Print ("[ERROR] Shapefile not found: "
                    ++ path_str lib shp_path)%string], Return None)
    else
      match output_path lib shp_path geojson_path with
      | None => (t, Fail ValueError)
      | Some q =>
          let t1 := t ++ map Print (announcement lib shp_path q) in
          match host_reader h t1 shp_path with
          | None => (t1, Fail ReadError)
          | Some sf =>
              match build_geojson sf with
              | Raise e => (t1, Fail (Python e))
              | Ok geojson =>
                  if host_writable h t1 q then
                    match json_dump geojson 2 with
                    | Raise e => (t1 ++ [Open q], Fail (Python e))
                    | Ok dump =>
                        match feature_count geojson with
                        | Raise e =>
                            (t1 ++ [Open q; Dumped q dump], Fail (Python e))
                        | Ok n =>
                            (t1 ++ [Open q; Dumped q dump]
                                ++ map Print (summary lib n q),
                             Return (Some q))
                        end
                    end
                  else (t1, Fail WriteError)
              end
          end
      end.
Proof.
  cbv beta iota zeta delta [shp_to_geojson output_path and_then ask print emit
                            read_shapefile open_output ret fail lift
                            announcement summary].
  destruct (host_exists h t shp_path); cbn [negb]; [| reflexivity].
  assert (Hsplit : forall q,
             ((((((t ++ [Print (str_mul "=" 80)])
                    ++ [Print "SHAPEFILE TO GEOJSON CONVERTER"])
                   ++ [Print (str_mul "=" 80)])
                  ++ [Print ""])
                 ++ [Print ("Input:  " ++ path_name lib shp_path)%string])
                ++ [Print ("Output: " ++ path_name lib q)%string])
               ++ [@Print path ""]
             = t ++ map Print
                    [str_mul "=" 80; "SHAPEFILE TO GEOJSON CONVERTER";
                     str_mul "=" 80; "";
                     ("Input:  " ++ path_name lib shp_path)%string;
                     ("Output: " ++ path_name lib q)%string; ""])
    by (intros q; now rewrite <- !app_assoc).
  destruct geojson_path as [q |];
    [| destruct (with_suffix lib shp_path ".geojson") as [q |];
       [| reflexivity]];
    cbv beta iota zeta; rewrite Hsplit;
    (destruct (host_reader h _ shp_path) as [sf |];
     cbv beta iota zeta; [| reflexivity]);
    (destruct (build_geojson sf) as [geojson | e];
     cbv beta iota zeta; [| reflexivity]);
    (destruct (host_writable h _ q); cbv beta iota zeta; [| reflexivity]);
    (destruct (json_dump geojson 2) as [dump | e];
     cbv beta iota zeta; [| reflexivity]);
    (destruct (feature_count geojson) as [n | e]; cbv beta iota zeta);
    rewrite <- ?app_assoc; reflexivity.
Qed.


Lemma printed_app (a b : list (event path)) :
  printed (a ++ b) = printed a ++ printed b.
Proof. unfold printed. apply flat_map_app. Qed.

Lemma file_events_prints (lines : list string) :
  file_events (map (@Print path) lines) = [].
Proof. induction lines as [| l ls IH]; simpl; [reflexivity | exact IH]. Qed.

Lemma file_events_app (a b : list (event path)) :
  file_events (a ++ b) = file_events a ++ file_events b.
Proof. unfold file_events. apply filter_app. Qed.


Lemma for_io_app {A : Type} (body : A -> io path unit) (xs ys : list A)
  (t : list (event path)) :
  for_io body (xs ++ ys) t
  = match for_io body xs t with
    | (t1, Return _) => for_io body ys t1
    | (t1, Fail f) => (t1, Fail f)
    end.
Proof.
  revert t. induction xs as [| x xs IH]; intros t; simpl.
  - reflexivity.
  - unfold and_then. destruct (body x t) as [t1 [[] | f]]; [apply IH | reflexivity].
Qed.

(** [batch_convert] step by step. *)
Lemma batch_convert_steps (t : list (event path)) :
  batch_convert lib h t
  = let t0 := t ++ map Print batch_banner in
    match host_glob h t0 with
    | [] =>
        (t0 ++ [Print "No lot_boundary*.shp files found in current directory"],
         Return tt)
    | shapefiles =>
        let t1 := t0 ++ map Print (batch_found (List.length shapefiles)) in
        match convert_each lib h shapefiles t1 with
        | (t2, Fail f) => (t2, Fail f)
        | (t2, Return _) =>
            match for_io (list_output lib) shapefiles
                         (t2 ++ map Print batch_closing) with
            | (t3, Fail f) => (t3, Fail f)
            | (t3, Return _) => (t3 ++ map Print usage, Return tt)
            end
        end
    end.
Proof.
  cbv beta iota zeta delta [batch_convert and_then ask print emit ret
                            batch_banner batch_found batch_closing usage].
  assert (Hbanner : forall (a b c d : event path),
             (((t ++ [a]) ++ [b]) ++ [c]) ++ [d] = t ++ [a; b; c; d])
    by (intros; now rewrite <- !app_assoc).
  rewrite Hbanner. cbn [map].
  destruct (host_glob h _) as [| p ps]; [reflexivity |].
  set (shapefiles := p :: ps).
  set (t0 := t ++ _).
  assert (Hfound : forall (a b : event path),
             (t0 ++ [a]) ++ [b] = t0 ++ [a; b])
    by (intros; now rewrite <- !app_assoc).
  rewrite Hfound.
  destruct (convert_each lib h shapefiles _) as [t2 [[] | f]]; [| reflexivity].
  assert (Hclosing : forall (a b c d e : event path),
             ((((t2 ++ [a]) ++ [b]) ++ [c]) ++ [d]) ++ [e]
             = t2 ++ [a; b; c; d; e])
    by (intros; now rewrite <- !app_assoc).
  rewrite Hclosing.
  destruct (for_io (list_output lib) shapefiles _) as [t3 [[] | f]];
    [| reflexivity].
  now rewrite <- !app_assoc.
Qed.

(** The file events of one conversion are on its output file only. *)
Lemma conversion_writes (shp_path : path) (geojson_path : option path)
  (t t' : list (event path)) (r : outcome (option path)) :
  shp_to_geojson lib h shp_path geojson_path t = (t', r) ->
  exists added,
    t' = t ++ added
    /\ Forall (fun e => exists q,
                   output_path lib shp_path geojson_path = Some q
                   /\ writes_to q e)
              (file_events added).
Proof.
  rewrite shp_to_geojson_steps.
  destruct (host_exists h t shp_path); cbn [negb].
  2:{ intros Hrun. apply pair_equal_spec in Hrun as [<- _].
      eexists. split; [reflexivity | constructor]. }
  destruct (output_path lib shp_path geojson_path) as [q |].
  2:{ intros Hrun. apply pair_equal_spec in Hrun as [<- _].
      exists []. rewrite app_nil_r. split; constructor. }
  cbv zeta.
  assert (Hquiet : forall r0 : outcome (option path),
             (t ++ map Print (announcement lib shp_path q), r0) = (t', r) ->
             exists added,
               t' = t ++ added
               /\ Forall (fun e => exists q0, Some q = Some q0 /\ writes_to q0 e)
                         (file_events added)).
  { intros r0 Hrun. apply pair_equal_spec in Hrun as [<- _].
    eexists. split; [reflexivity |].
    rewrite file_events_prints. constructor. }
  assert (Hopen : writes_to q (Open q)) by now left.
  assert (Hdump : forall dump, writes_to q (Dumped q dump))
    by (intros dump; right; now exists dump).
  destruct (host_reader h _ shp_path) as [sf |]; [| apply Hquiet].
  destruct (build_geojson sf) as [geojson | e]; [| apply Hquiet].
  destruct (host_writable h _ q); [| apply Hquiet].
  destruct (json_dump geojson 2) as [dump | e].
  - destruct (feature_count geojson) as [n | e];
      intros Hrun; apply pair_equal_spec in Hrun as [<- _].
    + exists (map Print (announcement lib shp_path q)
                ++ [Open q; Dumped q dump] ++ map Print (summary lib n q)).
      split; [now rewrite <- !app_assoc |].
      rewrite !file_events_app, !file_events_prints, app_nil_r.
      repeat constructor; exists q; now split.
    + exists (map Print (announcement lib shp_path q) ++ [Open q; Dumped q dump]).
      split; [now rewrite <- !app_assoc |].
      rewrite !file_events_app, !file_events_prints.
      repeat constructor; exists q; now split.
  - intros Hrun; apply pair_equal_spec in Hrun as [<- _].
    exists (map Print (announcement lib shp_path q) ++ [Open q]).
    split; [now rewrite <- !app_assoc |].
    rewrite !file_events_app, !file_events_prints.
    repeat constructor; exists q; now split.
Qed.

Lemma convert_each_writes (shapefiles : list path) :
  forall (t t' : list (event path)) (r : outcome unit),
    convert_each lib h shapefiles t = (t', r) ->
    exists added,
      t' = t ++ added
      /\ Forall (fun e => exists p q,
                     In p shapefiles
                     /\ with_suffix lib p ".geojson" = Some q
                     /\ writes_to q e)
                (file_events added).
Proof.
  unfold convert_each.
  induction shapefiles as [| p ps IH]; intros t t' r; cbn [for_io].
  - intros [= <- <-]. exists []. rewrite app_nil_r. split; constructor.
  - unfold and_then at 1 2, print, emit.
    destruct (shp_to_geojson lib h p None t) as [t1 r1] eqn:Hconv.
    destruct (conversion_writes _ _ _ _ _ Hconv) as [a1 [-> H1]].
    assert (H1' : Forall (fun e => exists p0 q,
                              In p0 (p :: ps)
                              /\ with_suffix lib p0 ".geojson" = Some q
                              /\ writes_to q e) (file_events a1)).
    { eapply Forall_impl; [| exact H1].
      intros e [q [Hq He]]. exists p, q. split; [now left | now split]. }
    destruct r1 as [o | f].
    + intros Hrest. destruct (IH _ _ _ Hrest) as [a2 [-> H2]].
      exists (a1 ++ [Print ""] ++ a2).
      split; [now rewrite <- !app_assoc |].
      rewrite !file_events_app. cbn [file_events filter app].
      apply Forall_app. split; [exact H1' |].
      eapply Forall_impl; [| exact H2].
      intros e [p0 [q [Hin Hrest']]]. exists p0, q. split; [now right | exact Hrest'].
    + intros [= <- <-]. exists a1. now split.
Qed.

Lemma list_output_prints (shapefiles : list path) :
  forall t : list (event path),
    Forall (fun p => with_suffix lib p ".geojson" <> None) shapefiles ->
    for_io (list_output lib) shapefiles t
    = (t ++ map Print (map (listing_line lib) shapefiles), Return tt).
Proof.
  induction shapefiles as [| p ps IH]; intros t Hall; cbn [for_io map].
  - now rewrite app_nil_r.
  - inversion Hall as [| ? ? Hp Hps]; subst.
    unfold and_then, list_output, listing_line, print, emit.
    destruct (with_suffix lib p ".geojson") as [q |]; [| contradiction].
    rewrite IH by exact Hps. now rewrite <- app_assoc.
Qed.

Lemma listing_writes_nothing (shapefiles : list path) :
  forall (t t' : list (event path)) (r : outcome unit),
    for_io (list_output lib) shapefiles t = (t', r) ->
    exists lines, t' = t ++ map Print lines.
Proof.
  induction shapefiles as [| p ps IH]; intros t t' r; cbn [for_io].
  - intros [= <- <-]. exists []. now rewrite app_nil_r.
  - unfold and_then, list_output, print, emit.
    destruct (with_suffix lib p ".geojson") as [q |].
    + intros Hrest. destruct (IH _ _ _ Hrest) as [lines ->].
      eexists (_ :: lines). now rewrite <- app_assoc.
    + unfold fail. intros [= <- <-]. exists []. now rewrite app_nil_r.
Qed.

(** A shapefile that is ready does not make the conversion fail. *)
Lemma ready_returns (shp_path q : path) (geojson_path : option path)
  (t : list (event path)) :
  output_path lib shp_path geojson_path = Some q ->
  ready h shp_path q ->
  exists added result,
    shp_to_geojson lib h shp_path geojson_path t = (t ++ added, Return result).
Proof.
  intros Hout [sf [Hread [Hwrite [Hwf Hready]]]].
  rewrite shp_to_geojson_steps, Hout.
  destruct (host_exists h t shp_path); cbn [negb]; [| now eexists; eexists].
  destruct (record_loop_well_formed (field_names sf) (shapeRecords sf) [] Hwf)
    as [features [Hloop Hall]].
  cbv zeta. rewrite Hread. unfold build_geojson, json_dump.
  rewrite geojson_init_empty, Hloop, Hwrite. cbn [app].
  rewrite (collection_encodable features)
    by (eapply built_all_encodable; eassumption).
  rewrite feature_count_collection.
  eexists; eexists. now rewrite <- !app_assoc.
Qed.

Lemma convert_each_returns (shapefiles : list path) :
  Forall (fun p => exists q,
              with_suffix lib p ".geojson" = Some q
              /\ ((forall t0, host_exists h t0 p = false) \/ ready h p q))
         shapefiles ->
  forall t : list (event path),
    exists added, convert_each lib h shapefiles t = (t ++ added, Return tt).
Proof.
  unfold convert_each.
  induction 1 as [| p ps [q [Hq Hp]] _ IH]; intros t; cbn [for_io].
  - exists []. now rewrite app_nil_r.
  - unfold and_then at 1 2, print, emit.
    assert (Hconv : exists a1 o,
               shp_to_geojson lib h p None t = (t ++ a1, Return o)).
    { destruct Hp as [Hgone | Hready].
      - rewrite shp_to_geojson_steps, Hgone. cbn [negb]. now eexists; eexists.
      - now apply (ready_returns p q None t Hq). }
    destruct Hconv as [a1 [o ->]].
    destruct (IH ((t ++ a1) ++ [Print ""])) as [a2 Hrest].
    exists (a1 ++ [Print ""] ++ a2).
    etransitivity; [exact Hrest |]. now rewrite <- !app_assoc.
Qed.

Lemma batch_writes (t t' : list (event path)) (r : outcome unit) :
  batch_convert lib h t = (t', r) ->
  exists added,
    t' = t ++ added
    /\ Forall (fun e => exists p q,
                   In p (host_glob h (t ++ map Print batch_banner))
                   /\ with_suffix lib p ".geojson" = Some q
                   /\ writes_to q e)
              (file_events added).
Proof.
  rewrite batch_convert_steps. cbv zeta.
  destruct (host_glob h (t ++ map Print batch_banner)) as [| p ps] eqn:Hglob.
  - intros Hrun; apply pair_equal_spec in Hrun as [<- <-]. eexists. split; [now rewrite <- app_assoc |].
    rewrite file_events_app, file_events_prints. constructor.
  - set (shapefiles := p :: ps) in *.
    destruct (convert_each lib h shapefiles _) as [t2 r2] eqn:Hloop.
    destruct (convert_each_writes _ _ _ _ Hloop) as [a2 [-> H2]].
    destruct r2 as [[] | f].
    + destruct (for_io (list_output lib) shapefiles _) as [t3 r3] eqn:Hlist.
      destruct (listing_writes_nothing _ _ _ _ Hlist) as [lines ->].
      assert (Hfiles : forall tail : list string,
                 file_events (map Print batch_banner
                                ++ map Print (batch_found (List.length shapefiles))
                                ++ a2 ++ map Print batch_closing
                                ++ map Print lines ++ map (@Print path) tail)
                 = file_events a2).
      { intros tail.
        now rewrite !file_events_app, !file_events_prints, app_nil_r. }
      destruct r3 as [[] | f]; intros Hrun; apply pair_equal_spec in Hrun as [<- <-].
      * exists (map Print batch_banner
                  ++ map Print (batch_found (List.length shapefiles))
                  ++ a2 ++ map Print batch_closing
                  ++ map Print lines ++ map Print usage).
        split; [now rewrite <- !app_assoc |]. now rewrite Hfiles.
      * exists (map Print batch_banner
                  ++ map Print (batch_found (List.length shapefiles))
                  ++ a2 ++ map Print batch_closing
                  ++ map Print lines ++ map Print []).
        split; [cbn [map]; now rewrite <- !app_assoc, app_nil_r |].
        now rewrite Hfiles.
    + intros Hrun; apply pair_equal_spec in Hrun as [<- <-].
      exists (map Print batch_banner
                ++ map Print (batch_found (List.length shapefiles)) ++ a2).
      split; [now rewrite <- !app_assoc |].
      now rewrite !file_events_app, !file_events_prints.
Qed.

End ScriptFacts.

(** ** Properties of the script *)

Section ScriptProperties.

Import Script.

Context {path : Type}.
Variable lib : Pathlib path.
Variable h : Host path.


(** X11. A shapefile that exists and is ready converts: the script returns
    the output path, and what it does to the files is to open the output
    file and dump the document of the shapefile's records into it, with
    [indent=2]; it prints the announcement, the number of features and the
    confirmation. *)
Theorem conversion_succeeds (shp_path q : path) (geojson_path : option path)
  (t : list (event path)) :
  host_exists h t shp_path = true ->
  output_path lib shp_path geojson_path = Some q ->
  ready h shp_path q ->
  exists (sf : Reader) (features : list pyobj),
    (forall t0, host_reader h t0 shp_path = Some sf)
    /\ build_geojson sf = Ok (feature_collection features)
    /\ shp_to_geojson lib h shp_path geojson_path t
       = (t ++ map Print (announcement lib shp_path q)
            ++ [Open q; Dumped q (mkDump (feature_collection features) 2)]
            ++ map Print
                 [("Converted "
                   ++ decimal (List.length (supported_records (shapeRecords sf)))
                   ++ " feature(s)")%string;
                  ("[OK] GeoJSON created: " ++ path_str lib q)%string; ""],
          Return (Some q)).
Proof.
  intros Hex Hout [sf [Hread [Hwrite [Hwf Hready]]]].
  destruct (record_loop_well_formed (field_names sf) (shapeRecords sf) [] Hwf)
    as [features [Hloop Hall]].
  assert (Hbuild : build_geojson sf = Ok (feature_collection features))
    by (unfold build_geojson; now rewrite geojson_init_empty).
  exists sf, features. split; [exact Hread |]. split; [exact Hbuild |].
  rewrite shp_to_geojson_steps, Hex, Hout. cbn [negb]. cbv zeta.
  rewrite Hread, Hbuild, Hwrite. unfold json_dump.
  rewrite (collection_encodable features)
    by (eapply built_all_encodable; eassumption).
  rewrite feature_count_collection. unfold summary, len.
  rewrite Nat2Z.id, (Forall2_length Hall). now rewrite <- !app_assoc.
Qed.

(** X12. When a record of the shapefile is not well-formed the conversion
    stops with [IndexError] before the output file is opened: only the
    announcement has been printed.  When the document holds a value [json]
    cannot encode, the conversion stops with [TypeError] after the output
    file has been opened: the file is left without a document. *)
Theorem failed_conversion_output (shp_path q : path)
  (geojson_path : option path) (t : list (event path)) (sf : Reader) :
  host_exists h t shp_path = true ->
  output_path lib shp_path geojson_path = Some q ->
  host_reader h (t ++ map Print (announcement lib shp_path q)) shp_path
  = Some sf ->
  (Exists (fun r => ~ well_formed (field_names sf) r) (shapeRecords sf) ->
     shp_to_geojson lib h shp_path geojson_path t
     = (t ++ map Print (announcement lib shp_path q), Fail (Python IndexError)))
  /\ (forall geojson,
        build_geojson sf = Ok geojson ->
        serializable geojson = false ->
        host_writable h (t ++ map Print (announcement lib shp_path q)) q = true ->
        shp_to_geojson lib h shp_path geojson_path t
        = (t ++ map Print (announcement lib shp_path q) ++ [Open q],
           Fail (Python TypeError))).
Proof.
  intros Hex Hout Hread. split.
  - intros Hbad.
    rewrite shp_to_geojson_steps, Hex, Hout. cbn [negb]. cbv zeta.
    rewrite Hread.
    now rewrite (build_ill_formed sf Hbad).
  - intros geojson Hbuild Hser Hwrite.
    rewrite shp_to_geojson_steps, Hex, Hout. cbn [negb]. cbv zeta.
    rewrite Hread, Hbuild, Hwrite. unfold json_dump. rewrite Hser.
    now rewrite <- app_assoc.
Qed.

(** X13. [batch_convert] handles no failure: when the conversion of one
    globbed shapefile fails, the batch stops with that failure right there.
    The shapefiles after it are not converted, and neither the completion
    banner nor the listing is printed. *)
Theorem batch_stops_at_failure (t t2 t3 : list (event path))
  (before after : list path) (p : path) (f : failure) :
  host_glob h (t ++ map Print batch_banner) = before ++ p :: after ->
  convert_each lib h before
    (t ++ map Print (batch_banner
                       ++ batch_found (List.length (before ++ p :: after))))
  = (t2, Return tt) ->
  shp_to_geojson lib h p None t2 = (t3, Fail f) ->
  batch_convert lib h t = (t3, Fail f).
Proof.
  intros Hglob Hbefore Hfail.
  rewrite batch_convert_steps. cbv zeta. rewrite Hglob.
  assert (Hloop : convert_each lib h (before ++ p :: after)
                    ((t ++ map Print batch_banner)
                       ++ map Print (batch_found
                                       (List.length (before ++ p :: after))))
                  = (t3, Fail f)).
  { unfold convert_each in *. rewrite for_io_app.
    rewrite <- app_assoc, <- map_app, Hbefore.
    cbn [for_io]. unfold and_then at 1 2. now rewrite Hfail. }
  destruct (before ++ p :: after) as [| p0 ps] eqn:Hlist.
  - now destruct before.
  - now rewrite Hloop.
Qed.

(** X14. When every globbed shapefile is either missing or ready, the batch
    runs to its end, and its final listing names an output file for every
    globbed shapefile, the missing ones included. *)
Theorem batch_completes (t : list (event path)) (shapefiles : list path) :
  host_glob h (t ++ map Print batch_banner) = shapefiles ->
  shapefiles <> [] ->
  Forall (fun p => exists q,
              with_suffix lib p ".geojson" = Some q
              /\ ((forall t0, host_exists h t0 p = false) \/ ready h p q))
         shapefiles ->
  exists conversions : list (event path),
    batch_convert lib h t
    = (t ++ map Print (batch_banner ++ batch_found (List.length shapefiles))
         ++ conversions
         ++ map Print (batch_closing ++ map (listing_line lib) shapefiles
                         ++ usage),
       Return tt).
Proof.
  intros Hglob Hne Hall.
  rewrite batch_convert_steps. cbv zeta. rewrite Hglob.
  destruct (convert_each_returns lib h shapefiles Hall
              ((t ++ map Print batch_banner)
                 ++ map Print (batch_found (List.length shapefiles))))
    as [conversions Hloop].
  exists conversions.
  destruct shapefiles as [| p ps]; [contradiction |].
  rewrite Hloop, list_output_prints.
  - rewrite !map_app. now rewrite <- !app_assoc.
  - eapply Forall_impl; [| exact Hall].
    intros p0 [q [Hq _]]. now rewrite Hq.
Qed.

(** X15. Whatever the command line and the host, the only files the script
    opens or dumps are its outputs: with a shapefile argument, the output
    path given as second argument or else the shapefile's path with the
    suffix [.geojson]; without argument, the paths of the globbed shapefiles
    with the suffix [.geojson]. *)
Theorem script_writes_only_outputs (argv : list string)
  (t t' : list (event path)) (r : outcome unit) :
  main lib h argv t = (t', r) ->
  exists added,
    t' = t ++ added
    /\ Forall
         (fun e =>
            exists q,
              writes_to q e
              /\ match argv with
                 | _ :: shp_path :: rest =>
                     output_path lib (path_of lib shp_path)
                                 (option_map (path_of lib) (hd_error rest))
                     = Some q
                 | _ =>
                     exists p,
                       In p (host_glob h (t ++ map Print batch_banner))
                       /\ with_suffix lib p ".geojson" = Some q
                 end)
         (file_events added).
Proof.
  assert (Hbatch : batch_convert lib h t = (t', r) ->
                   exists added,
                     t' = t ++ added
                     /\ Forall
                          (fun e =>
                             exists q,
                               writes_to q e
                               /\ exists p,
                                    In p (host_glob h (t ++ map Print batch_banner))
                                    /\ with_suffix lib p ".geojson" = Some q)
                          (file_events added)).
  { intros Hrun. destruct (batch_writes lib h _ _ _ Hrun) as [added [-> Hall]].
    exists added. split; [reflexivity |].
    eapply Forall_impl; [| exact Hall].
    intros e [p [q [Hin [Hq He]]]]. exists q. split; [exact He |].
    now exists p. }
  destruct argv as [| prog [| shp_path rest]]; try exact Hbatch.
  unfold main, and_then.
  assert (Hout : match rest with
                 | [] => None
                 | out :: _ => Some (path_of lib out)
                 end = option_map (path_of lib) (hd_error rest))
    by now destruct rest.
  rewrite Hout.
  destruct (shp_to_geojson lib h (path_of lib shp_path) _ t) as [t1 r1] eqn:Hconv.
  destruct (conversion_writes lib h _ _ _ _ _ Hconv) as [added [-> Hall]].
  intros Hrun. exists added. split.
  - destruct r1; now injection Hrun as <- _.
  - eapply Forall_impl; [| exact Hall].
    intros e [q [Hq He]]. now exists q.
Qed.

End ScriptProperties.

Lemma north_ready :
  Script.ready (Desk.host Desk.north_content) Desk.north Desk.north_out.
Proof.
  exists Desk.north_content. repeat split; try reflexivity.
  - repeat constructor; simpl; try lia; discriminate.
  - repeat constructor.
Qed.

Lemma south_ready :
  Script.ready (Desk.host Desk.north_content) Desk.south Desk.south_out.
Proof.
  exists Desk.south_content. repeat split; try reflexivity.
  - repeat constructor; simpl; try lia; discriminate.
  - repeat constructor.
Qed.


Lemma conversion_succeeds_witness :
  exists (sf : Reader) (features : list pyobj),
    build_geojson sf = Ok (feature_collection features)
    /\ Script.file_events
         (fst (Script.shp_to_geojson Desk.lib (Desk.host Desk.north_content)
                 Desk.north None []))
       = [Script.Open Desk.north_out;
          Script.Dumped Desk.north_out
                        (mkDump (feature_collection features) 2)]
    /\ snd (Script.shp_to_geojson Desk.lib (Desk.host Desk.north_content)
              Desk.north None [])
       = Script.Return (Some Desk.north_out).
Proof.
  destruct (conversion_succeeds Desk.lib (Desk.host Desk.north_content)
              Desk.north Desk.north_out
              None [] eq_refl eq_refl north_ready)
    as [sf [features [_ [Hbuild Hrun]]]].
  exists sf, features. split; [exact Hbuild |].
  rewrite Hrun. split; reflexivity.
Defined.

Lemma failed_conversion_output_witness :
  Script.shp_to_geojson Desk.lib (Desk.host Desk.short_content)
    Desk.north None []
  = (map Script.Print
       (Script.announcement Desk.lib Desk.north
          Desk.north_out),
     Script.Fail (Script.Python IndexError)).
Proof.
  apply (proj1 (failed_conversion_output Desk.lib (Desk.host Desk.short_content)
                  Desk.north Desk.north_out
                  None [] Desk.short_content eq_refl eq_refl eq_refl)).
  apply Exists_cons_tl, Exists_cons_hd.
  intros [Hrow _]. unfold row_covers in Hrow. simpl in Hrow. lia.
Defined.

Lemma batch_stops_at_failure_witness :
  Script.batch_convert Desk.lib (Desk.host Desk.short_content) []
  = (map Script.Print
       (Script.batch_banner ++ Script.batch_found 3
          ++ Script.announcement Desk.lib Desk.north
               Desk.north_out),
     Script.Fail (Script.Python IndexError)).
Proof.
  apply (batch_stops_at_failure Desk.lib (Desk.host Desk.short_content) []
           (map Script.Print (Script.batch_banner ++ Script.batch_found 3))
           _ [] [Desk.gone; Desk.south] Desk.north);
    reflexivity.
Defined.

Lemma batch_completes_witness :
  exists conversions : list (Script.event Desk.path),
    Script.batch_convert Desk.lib (Desk.host Desk.north_content) []
    = ([] ++ map Script.Print (Script.batch_banner ++ Script.batch_found 3)
          ++ conversions
          ++ map Script.Print
               (Script.batch_closing
                  ++ ["  - lot_boundary_north.geojson";
                      "  - lot_boundary_x.geojson";
                      "  - lot_boundary_south.geojson"]
                  ++ Script.usage),
       Script.Return tt).
Proof.
  apply (batch_completes Desk.lib (Desk.host Desk.north_content) []
           [Desk.north; Desk.gone; Desk.south]).
  - reflexivity.
  - discriminate.
  - constructor; [| constructor; [| constructor; [| constructor]]].
    + eexists. split; [reflexivity |]. right. exact north_ready.
    + eexists. split; [reflexivity |]. left. reflexivity.
    + eexists. split; [reflexivity |]. right. exact south_ready.
Defined.

Lemma script_writes_only_outputs_witness :
  exists added,
    fst (Script.main Desk.lib (Desk.host Desk.north_content)
           ["shp_to_geojson.py"; "lot_boundary_north.shp"; "north.json"] [])
    = [] ++ added
    /\ Forall (fun e => exists q,
                   Script.writes_to q e /\ Some (Desk.mkPath "" "north.json") = Some q)
              (Script.file_events added).
Proof.
  apply (script_writes_only_outputs Desk.lib (Desk.host Desk.north_content)
           ["shp_to_geojson.py"; "lot_boundary_north.shp"; "north.json"] []
           _ _ (surjective_pairing _)).
Defined.

(** ** Worked examples *)

Section Examples.

Import Sample.

Example iso_date : date_isoformat 2024 3 7 = "2024-03-07".
Proof. reflexivity. Qed.

Example two_part_polyline :
  geometry_of (mkShape 3 five_points [0; 3])
  = Ok (PyDict [("type", PyStr "MultiLineString");
                ("coordinates",
                 PyList [PyList [xy 0 0; xy 1 0; xy 2 1];
                         PyList [xy 3 1; xy 4 2]])]).
Proof. reflexivity. Qed.

Example two_ring_polygon :
  geometry_of (mkShape 5 eight_points [0; 4])
  = Ok (PyDict [("type", PyStr "Polygon");
                ("coordinates",
                 PyList [PyList [xy 0 0; xy 4 0; xy 4 4; xy 0 0];
                         PyList [xy 1 1; xy 2 1; xy 2 2; xy 1 1]])]).
Proof. reflexivity. Qed.

(** Offsets are used as Python slice bounds: a negative one counts from the
    end, one past the end is clamped. *)
Example slice_bounds :
  slice five_points (-2) 9 = [xy 3 1; xy 4 2]
  /\ slice five_points 3 1 = [].
Proof. split; reflexivity. Qed.

(** A Point, a two-part Polyline and a MultiPatch record with two fields:
    two features, in input order, each with the two named properties. *)
Example three_records :
  shp_to_geojson true
    (mkReader two_fields [point_record; polyline_record; multipatch_record])
  = Ok (Some (mkConversion
                (mkDump
                   (feature_collection
                      [PyDict [("type", PyStr "Feature");
                               ("geometry",
                                PyDict [("type", PyStr "Point");
                                        ("coordinates", xy 7 9)]);
                               ("properties",
                                PyDict [("NAME", PyStr "well");
                                        ("SURVEYED", PyStr "2024-03-07")])];
                       PyDict [("type", PyStr "Feature");
                               ("geometry",
                                PyDict [("type", PyStr "MultiLineString");
                                        ("coordinates",
                                         PyList [PyList [xy 0 0; xy 1 0; xy 2 1];
                                                 PyList [xy 3 1; xy 4 2]])]);
                               ("properties",
                                PyDict [("NAME", PyStr "fence");
                                        ("SURVEYED", PyNone)])]])
                   2)
                2)).
Proof. reflexivity. Qed.

(** A missing shapefile: nothing is converted and nothing is raised. *)
Example missing_shapefile (sf : Reader) : shp_to_geojson false sf = Ok None.
Proof. reflexivity. Qed.

(** A date left inside a list is not converted, and the dump rejects it. *)
Example unconverted_date :
  shp_to_geojson true
    (mkReader two_fields
       [mkShapeRecord (mkShape 1 [xy 7 9] [])
                      [PyStr "well"; PyList [PyDate 2024 3 7]]])
  = Raise TypeError.
Proof. reflexivity. Qed.

End Examples.
